(** * Marstek Venus Energy Manager: aggregate, calculated and binary sensors

    A shallow embedding of the sensor layer of the integration
    (aggregate_sensors.py, calculated_sensors.py, binary_sensor.py) and of
    the predictive charging decision it displays.

    Numbers.  Telemetry values are Python numbers (int or float).  They are
    modelled as exact rationals [Qc]; Python's [round(x, n)] is rounding to
    [n] decimals with ties going to the even neighbour.  Binary floating
    point is not modelled.  The interpreter's sums, products and quotients
    of floats carry an error in the last binary place, and that error
    decides which way [round] goes when the exact value lies on a tie: the
    exact product of 5 / 100 and 2.25 is 0.1125 and rounds to 0.112, the
    float product lies just above it and rounds to 0.113.  The properties
    are therefore stated so that they hold on either side of a tie.  A
    rounded result is placed less than one unit of the last decimal kept
    away from the exact value (half a unit for the rounding, and room for
    the error before it), and between the bounds that rounding keeps; it is
    given exactly only where the computation has no such error to make:
    on whole-number readings, or when the exact value already has no more
    decimals than are kept.  Of the exceptions of the interpreter only
    [ZeroDivisionError] is modelled; a reading too large for a float is
    outside the model.

    Dictionaries.  [coordinator.data] is [None] or a dict from register keys
    to numbers: [option (gmap string Qc)].  [d.get(k)] is [d !! k] and
    [d.get(k, 0)] is [default 0 (d !! k)]. *)

From Stdlib Require Import ZArith QArith Qcanon Lia.
From stdpp Require Import base numbers option list strings gmap.

Local Open Scope string_scope.
Local Open Scope Z_scope.
Local Open Scope Qc_scope.
Local Open Scope list_scope.

(** ** Python values, exceptions and arithmetic *)

Module Py.

(** Exceptions: of those of the interpreter, the division by zero. *)
Inductive exn : Type :=
| ZeroDivisionError.

Inductive result (A : Type) : Type :=
| Returned (a : A)
| Raised (e : exn).

Arguments Returned {A} a.
Arguments Raised {A} e.

(** [x / y] on numbers: true division, raising on a zero divisor. *)
Definition truediv (x y : Qc) : result Qc :=
  if decide (y = 0) then Raised ZeroDivisionError else Returned (x / y).

(** Nearest integer of a rational, ties to the even neighbour. *)
Definition round_half_even (q : Q) : Z :=
  let n := Qnum q in
  let d := Zpos (Qden q) in
  let f := (n / d)%Z in
  let r := (n mod d)%Z in
  match (2 * r ?= d)%Z with
  | Lt => f
  | Gt => (f + 1)%Z
  | Eq => if Z.even f then f else (f + 1)%Z
  end.

Definition pow10 (ndigits : nat) : Qc := Qc_of_Z (10 ^ Z.of_nat ndigits).

(** [round(x, ndigits)] for a non-negative number of digits: scale, take the
    nearest integer, scale back. *)
Definition round (x : Qc) (ndigits : nat) : Qc :=
  Qc_of_Z (round_half_even (x * pow10 ndigits)) / pow10 ndigits.

(** [abs(x)]. *)
Definition abs (x : Qc) : Qc := if decide (x < 0) then - x else x.

(** [sum(xs)]: left to right from 0. *)
Definition sum (xs : list Qc) : Qc := foldl Qcplus 0 xs.

(** [len(xs)] as a number. *)
Definition len {A : Type} (xs : list A) : Qc := Qc_of_Z (Z.of_nat (length xs)).

(** Truth value of [None] or a dict: only a non-empty dict is true. *)
Definition truthy {V : Type} (d : option (gmap string V)) : bool :=
  match d with
  | None => false
  | Some m => bool_decide (m <> empty)
  end.

(** [d.get(k)] on a dict known to exist. *)
Definition get (d : gmap string Qc) (k : string) : option Qc := d !! k.

(** [d.get(k, dflt)]. *)
Definition get_default (d : gmap string Qc) (k : string) (dflt : Qc) : Qc :=
  default dflt (d !! k).

End Py.

(** ** The per-battery data source

    [MarstekVenusDataUpdateCoordinator] lives in coordinator.py; the sensor
    layer only reads the attributes below, which is all this record keeps. *)

Module Coordinator.

Record MarstekVenusDataUpdateCoordinator : Type := {
  name : string;
  host : string;
  data : option (gmap string Qc);
  _hysteresis_active : bool;
  enable_charge_hysteresis : bool;
  max_soc : Qc;
  charge_hysteresis_percent : Qc
}.

End Coordinator.

Abbreviation coordinator := Coordinator.MarstekVenusDataUpdateCoordinator.

(** ** The world the sensors run in

    The coordinators are shared mutable objects: the sensors hold references
    to them, and the polling layer rewrites their [data].  A sensor method is
    therefore a computation over the store of coordinators; it may also write
    to the debug log, and it may raise. *)

Inductive log_record : Type :=
| DischargeDebug (battery_powers : list (string * Qc)) (total_power : Qc).

Record World : Type := {
  coordinators : list coordinator;
  debug_log : list log_record
}.

Definition M (A : Type) : Type := World -> Py.result A * World.

Definition ret {A : Type} (a : A) : M A := fun w => (Py.Returned a, w).

Definition bind {A B : Type} (m : M A) (k : A -> M B) : M B :=
  fun w =>
    match m w with
    | (Py.Returned a, w') => k a w'
    | (Py.Raised e, w') => (Py.Raised e, w')
    end.

Definition lift {A : Type} (r : Py.result A) : M A := fun w => (r, w).

Definition read_coordinators : M (list coordinator) :=
  fun w => (Py.Returned (coordinators w), w).

Definition logger_debug (r : log_record) : M unit :=
  fun w => (Py.Returned tt,
            {| coordinators := coordinators w; debug_log := debug_log w ++ [r] |}).

Declare Scope py_scope.
Delimit Scope py_scope with py.
Notation "x <- m ;; k" := (bind m (fun x => k))
  (at level 100, m at next level, right associativity) : py_scope.
Notation "m ;;; k" := (bind m (fun _ => k))
  (at level 100, right associativity) : py_scope.

(** ** aggregate_sensors.py *)

Module AggregateSensors.

Import Coordinator.
Local Open Scope py_scope.

Record definition : Type := {
  key : string;
  name : string;
  unit : string;
  device_class : string;
  state_class : string;
  icon : string;
  precision : option nat
}.

Definition AGGREGATE_SENSOR_DEFINITIONS : list definition := [
  {| key := "system_soc"; name := "System SOC"; unit := "%";
     device_class := "battery"; state_class := "measurement";
     icon := "mdi:battery"; precision := Some 0%nat |};
  {| key := "system_charge_power"; name := "System Charge Power"; unit := "W";
     device_class := "power"; state_class := "measurement";
     icon := "mdi:battery-charging"; precision := Some 0%nat |};
  {| key := "system_discharge_power"; name := "System Discharge Power"; unit := "W";
     device_class := "power"; state_class := "measurement";
     icon := "mdi:battery-minus"; precision := Some 0%nat |};
  {| key := "system_total_energy"; name := "System Total Energy"; unit := "kWh";
     device_class := "energy"; state_class := "total";
     icon := "mdi:battery-heart"; precision := Some 2%nat |};
  {| key := "system_stored_energy"; name := "System Stored Energy"; unit := "kWh";
     device_class := "energy"; state_class := "total";
     icon := "mdi:battery-high"; precision := Some 3%nat |};
  {| key := "system_daily_charging_energy"; name := "System Daily Charging Energy";
     unit := "kWh"; device_class := "energy"; state_class := "total_increasing";
     icon := "mdi:battery-plus"; precision := Some 2%nat |};
  {| key := "system_daily_discharging_energy"; name := "System Daily Discharging Energy";
     unit := "kWh"; device_class := "energy"; state_class := "total_increasing";
     icon := "mdi:battery-minus"; precision := Some 2%nat |}
].

(** The sensor object.  Its [coordinators] attribute is the list of
    references it was built with (sensor.py passes every coordinator of the
    entry), that is, the store of the world. *)
Record MarstekVenusAggregateSensor : Type := {
  sensor_definition : definition
}.

(** [self.definition.get("precision", dflt)]. *)
Definition get_precision (self : MarstekVenusAggregateSensor) (dflt : nat) : nat :=
  default dflt (precision (sensor_definition self)).

(** Body of the loop of [_calculate_average_soc]: one coordinator. *)
Definition average_soc_step (soc_values : list Qc) (c : coordinator) : list Qc :=
  if Py.truthy (data c) then
    match data c ≫= (fun d => Py.get d "battery_soc") with
    | Some soc => soc_values ++ [soc]
    | None => soc_values
    end
  else soc_values.

Definition _calculate_average_soc (self : MarstekVenusAggregateSensor) : M (option Qc) :=
  cs <- read_coordinators ;;
  let soc_values := foldl average_soc_step [] cs in
  match soc_values with
  | [] => ret None
  | _ =>
      avg_soc <- lift (Py.truediv (Py.sum soc_values) (Py.len soc_values)) ;;
      ret (Some (Py.round avg_soc (get_precision self 0)))
  end.

(** Loop state of the summing loops: [(total, has_data)]. *)
Definition charge_power_step (st : Qc * bool) (c : coordinator) : Qc * bool :=
  let '(total_power, has_data) := st in
  if Py.truthy (data c) then
    match data c ≫= (fun d => Py.get d "battery_power") with
    | Some power =>
        if decide (0 < power) then (total_power + power, true)
        else (total_power, has_data)
    | None => (total_power, has_data)
    end
  else (total_power, has_data).

Definition _calculate_total_charge_power (self : MarstekVenusAggregateSensor) : M (option Qc) :=
  cs <- read_coordinators ;;
  let '(total_power, has_data) := foldl charge_power_step (0, false) cs in
  if negb has_data then ret (Some 0)
  else ret (Some (Py.round total_power (get_precision self 0))).

(** Loop state of the discharge loop: [(total, has_data, battery_powers)]. *)
Definition discharge_power_step (st : Qc * bool * list (string * Qc)) (c : coordinator)
  : Qc * bool * list (string * Qc) :=
  let '(total_power, has_data, battery_powers) := st in
  if Py.truthy (data c) then
    match data c ≫= (fun d => Py.get d "battery_power") with
    | Some power =>
        let battery_powers := battery_powers ++ [(Coordinator.name c, power)] in
        if decide (power < 0) then (total_power + Py.abs power, true, battery_powers)
        else (total_power, has_data, battery_powers)
    | None => (total_power, has_data, battery_powers)
    end
  else (total_power, has_data, battery_powers).

Definition _calculate_total_discharge_power (self : MarstekVenusAggregateSensor)
  : M (option Qc) :=
  cs <- read_coordinators ;;
  let '(total_power, has_data, battery_powers) :=
    foldl discharge_power_step (0, false, []) cs in
  (match battery_powers with
   | [] => ret tt
   | _ => logger_debug (DischargeDebug battery_powers total_power)
   end) ;;;
  if negb has_data then ret (Some 0)
  else ret (Some (Py.round total_power (get_precision self 0))).

(** The three plain sums differ only in the key they read. *)
Definition sum_key_step (k : string) (st : Qc * bool) (c : coordinator) : Qc * bool :=
  let '(total_energy, has_data) := st in
  if Py.truthy (data c) then
    match data c ≫= (fun d => Py.get d k) with
    | Some energy => (total_energy + energy, true)
    | None => (total_energy, has_data)
    end
  else (total_energy, has_data).

Definition sum_key (k : string) (self : MarstekVenusAggregateSensor) : M (option Qc) :=
  cs <- read_coordinators ;;
  let '(total_energy, has_data) := foldl (sum_key_step k) (0, false) cs in
  if negb has_data then ret None
  else ret (Some (Py.round total_energy (get_precision self 2))).

Definition _calculate_total_energy := sum_key "battery_total_energy".

Definition _calculate_daily_charging_energy := sum_key "total_daily_charging_energy".

Definition _calculate_daily_discharging_energy := sum_key "total_daily_discharging_energy".

Definition stored_energy_step (st : Qc * bool) (c : coordinator) : Qc * bool :=
  let '(total_stored, has_data) := st in
  if Py.truthy (data c) then
    let soc := data c ≫= (fun d => Py.get d "battery_soc") in
    let total_energy := data c ≫= (fun d => Py.get d "battery_total_energy") in
    match soc, total_energy with
    | Some soc, Some total_energy =>
        let stored_energy := (soc / Qc_of_Z 100) * total_energy in
        (total_stored + stored_energy, true)
    | _, _ => (total_stored, has_data)
    end
  else (total_stored, has_data).

Definition _calculate_total_stored_energy (self : MarstekVenusAggregateSensor)
  : M (option Qc) :=
  cs <- read_coordinators ;;
  let '(total_stored, has_data) := foldl stored_energy_step (0, false) cs in
  if negb has_data then ret None
  else ret (Some (Py.round total_stored (get_precision self 3))).

Definition native_value (self : MarstekVenusAggregateSensor) : M (option Qc) :=
  let key := key (sensor_definition self) in
  if decide (key = "system_soc") then _calculate_average_soc self
  else if decide (key = "system_charge_power") then _calculate_total_charge_power self
  else if decide (key = "system_discharge_power") then _calculate_total_discharge_power self
  else if decide (key = "system_total_energy") then _calculate_total_energy self
  else if decide (key = "system_stored_energy") then _calculate_total_stored_energy self
  else if decide (key = "system_daily_charging_energy")
       then _calculate_daily_charging_energy self
  else if decide (key = "system_daily_discharging_energy")
       then _calculate_daily_discharging_energy self
  else ret None.

(** [any(coordinator.data is not None for coordinator in self.coordinators)]. *)
Definition available (self : MarstekVenusAggregateSensor) : M bool :=
  cs <- read_coordinators ;;
  ret (existsb (fun c => bool_decide (data c <> None)) cs).

(** The sensor built by sensor.py for the definition with the given key. *)
Definition sensor_for (k : string) : option MarstekVenusAggregateSensor :=
  (fun d => {| sensor_definition := d |}) <$>
    List.find (fun d => bool_decide (key d = k)) AGGREGATE_SENSOR_DEFINITIONS.

End AggregateSensors.

(** ** calculated_sensors.py *)

Module CalculatedSensors.

Import Coordinator.

(** The [dependency_keys] of a definition of const.py: the data keys of the
    two registers a calculated sensor reads. *)
Record efficiency_definition : Type := {
  charge : string;
  discharge : string
}.

Record stored_energy_definition : Type := {
  soc : string;
  capacity : string
}.

Module MarstekVenusEfficiencySensor.

(** [native_value], read for the coordinator the entity is attached to. *)
Definition native_value (_dependency_keys : efficiency_definition)
    (coordinator : coordinator) : Py.result (option Qc) :=
  match data coordinator with
  | None => Py.Returned None
  | Some d =>
      let charge_key := charge _dependency_keys in
      let discharge_key := discharge _dependency_keys in
      let charge_energy := Py.get_default d charge_key 0 in
      let discharge_energy := Py.get_default d discharge_key 0 in
      if decide (charge_energy <= 0) then Py.Returned None
      else
        match Py.truediv discharge_energy charge_energy with
        | Py.Raised e => Py.Raised e
        | Py.Returned ratio =>
            let efficiency := ratio * Qc_of_Z 100 in
            Py.Returned (Some (Py.round efficiency 2))
        end
  end.

End MarstekVenusEfficiencySensor.

Module MarstekVenusStoredEnergySensor.

Definition native_value (_dependency_keys : stored_energy_definition)
    (coordinator : coordinator) : Py.result (option Qc) :=
  match data coordinator with
  | None => Py.Returned None
  | Some d =>
      let soc_key := soc _dependency_keys in
      let capacity_key := capacity _dependency_keys in
      let soc := Py.get_default d soc_key 0 in
      let capacity := Py.get_default d capacity_key 0 in
      if decide (capacity <= 0) then Py.Returned None
      else
        let stored_energy := (soc / Qc_of_Z 100) * capacity in
        Py.Returned (Some (Py.round stored_energy 3))
  end.

End MarstekVenusStoredEnergySensor.

End CalculatedSensors.

(** ** binary_sensor.py *)

Module BinarySensor.

Import Coordinator.

(** The state object the restore mechanism hands back. *)
Record State : Type := {
  state : string
}.

Module ChargeHysteresisActiveSensor.

(** [async_added_to_hass]: the coordinator the sensor refers to, before and
    after; [last_state] is what [async_get_last_state] returned. *)
Definition async_added_to_hass (last_state : option State) (c : coordinator) : coordinator :=
  match last_state with
  | None => c
  | Some last_state =>
      let was_active := bool_decide (state last_state = "on") in
      {| name := name c;
         host := host c;
         data := data c;
         _hysteresis_active := was_active;
         enable_charge_hysteresis := enable_charge_hysteresis c;
         max_soc := max_soc c;
         charge_hysteresis_percent := charge_hysteresis_percent c |}
  end.

Definition is_on (c : coordinator) : bool := _hysteresis_active c.

(** Modelled from the spec: the constructor of the coordinator is in
    coordinator.py; section 3 gives the hysteresis state of a newly created
    battery as [false], and the log line of [async_added_to_hass] says the
    same. *)
Definition cold_start (c : coordinator) : coordinator :=
  {| name := name c;
     host := host c;
     data := data c;
     _hysteresis_active := false;
     enable_charge_hysteresis := enable_charge_hysteresis c;
     max_soc := max_soc c;
     charge_hysteresis_percent := charge_hysteresis_percent c |}.

(** A start of the process: the coordinator is created, then the entity is
    added and restores once. *)
Definition startup (last_state : option State) (c : coordinator) : coordinator :=
  async_added_to_hass last_state (cold_start c).

End ChargeHysteresisActiveSensor.

(** The last decision of the controller, as the dict the sensor reads. *)
Record DecisionRecord : Type := {
  stored_energy_kwh : option Qc;
  usable_energy_kwh : option Qc;
  min_reserve_kwh : option Qc;
  cutoff_energy_kwh : option Qc;
  effective_min_soc : option Qc;
  avg_consumption_kwh : option Qc;
  total_available_kwh : option Qc;
  energy_deficit_kwh : option Qc;
  solar_forecast_kwh : option Qc;
  reason : string
}.

(** A calendar day of the consumption history. *)
Record date : Type := {
  toordinal : Z
}.

(** The attributes of the controller that [PredictiveChargingStatusSensor]
    reads.  [in_predictive_charging_slot] is the answer of
    [_is_in_predictive_charging_slot()] at the time of reading; an attribute
    that is missing, [None] or empty is [None] or [[]] here. *)
Record Controller : Type := {
  grid_charging_active : bool;
  in_predictive_charging_slot : bool;
  last_evaluation_soc : option Qc;
  predictive_charging_overridden : bool;
  charging_time_slot : option string;
  solar_forecast_sensor : option string;
  max_contracted_power : Qc;
  _daily_consumption_history : list (date * Qc);
  _last_decision_data : option DecisionRecord
}.

Module PredictiveChargingStatusSensor.

Definition is_on (controller : Controller) : bool := grid_charging_active controller.

Inductive attr_value : Type :=
| ABool (b : bool)
| ANum (x : option Qc)
| AStr (s : string)
| ALen (n : nat)
| AHistory (h : list (date * Qc)).

(** [dict.update] on an insertion-ordered dict, one key. *)
Fixpoint attrs_set (attrs : list (string * attr_value)) (k : string) (v : attr_value)
  : list (string * attr_value) :=
  match attrs with
  | [] => [(k, v)]
  | (k', v') :: rest =>
      if decide (k' = k) then (k, v) :: rest else (k', v') :: attrs_set rest k v
  end.

Definition attrs_update (attrs updates : list (string * attr_value))
  : list (string * attr_value) :=
  foldl (fun a kv => attrs_set a (fst kv) (snd kv)) attrs updates.

Fixpoint attrs_get (attrs : list (string * attr_value)) (k : string) : option attr_value :=
  match attrs with
  | [] => None
  | (k', v) :: rest => if decide (k' = k) then Some v else attrs_get rest k
  end.

Definition extra_state_attributes (controller : Controller) : list (string * attr_value) :=
  let attrs := [
    ("in_charging_slot", ABool (in_predictive_charging_slot controller));
    ("last_evaluation_soc", ANum (last_evaluation_soc controller));
    ("overridden", ABool (predictive_charging_overridden controller))
  ] in
  let attrs :=
    match charging_time_slot controller with
    | Some slot => attrs_set attrs "time_slot" (AStr slot)
    | None => attrs
    end in
  let attrs :=
    match solar_forecast_sensor controller with
    | Some sensor => attrs_set attrs "solar_forecast_sensor" (AStr sensor)
    | None => attrs
    end in
  let attrs := attrs_set attrs "max_contracted_power"
                 (ANum (Some (max_contracted_power controller))) in
  let attrs :=
    match _daily_consumption_history controller with
    | [] => attrs
    | history =>
        attrs_set (attrs_set attrs "daily_consumption_history" (AHistory history))
          "history_days" (ALen (length history))
    end in
  match _last_decision_data controller with
  | None => attrs
  | Some decision =>
      attrs_update attrs [
        ("stored_energy_kwh", ANum (stored_energy_kwh decision));
        ("usable_energy_kwh", ANum (usable_energy_kwh decision));
        ("min_reserve_kwh", ANum (min_reserve_kwh decision));
        ("cutoff_energy_kwh", ANum (cutoff_energy_kwh decision));
        ("effective_min_soc", ANum (effective_min_soc decision));
        ("avg_consumption_kwh", ANum (avg_consumption_kwh decision));
        ("total_available_kwh", ANum (total_available_kwh decision));
        ("energy_deficit_kwh", ANum (energy_deficit_kwh decision));
        ("solar_forecast_kwh", ANum (solar_forecast_kwh decision));
        ("decision_reason", AStr (reason decision))
      ]
  end.

End PredictiveChargingStatusSensor.

End BinarySensor.

(** ** The aggregate as one value

    The specification speaks of one [aggregate()] producing a
    [SystemAggregateState]; in the code each field is the [native_value] of
    the aggregate sensor built for one definition of the table. *)

Module Aggregator.

Import AggregateSensors.
Local Open Scope py_scope.

(** The [SystemAggregateState] of section 3 of the specification. *)
Record SystemAggregateState : Type := {
  average_soc : option Qc;
  total_charge_power : option Qc;
  total_discharge_power : option Qc;
  total_energy_capacity : option Qc;
  total_stored_energy : option Qc;
  total_daily_charge_energy : option Qc;
  total_daily_discharge_energy : option Qc
}.

(** The value of the sensor sensor.py builds for a key of the table. *)
Definition native_value_of (k : string) : M (option Qc) :=
  match sensor_for k with
  | Some self => native_value self
  | None => ret None
  end.

Definition aggregate : M SystemAggregateState :=
  soc <- native_value_of "system_soc" ;;
  charge <- native_value_of "system_charge_power" ;;
  discharge <- native_value_of "system_discharge_power" ;;
  total <- native_value_of "system_total_energy" ;;
  stored <- native_value_of "system_stored_energy" ;;
  daily_charge <- native_value_of "system_daily_charging_energy" ;;
  daily_discharge <- native_value_of "system_daily_discharging_energy" ;;
  ret {| average_soc := soc;
         total_charge_power := charge;
         total_discharge_power := discharge;
         total_energy_capacity := total;
         total_stored_energy := stored;
         total_daily_charge_energy := daily_charge;
         total_daily_discharge_energy := daily_discharge |}.

End Aggregator.

(** ** The predictive charging decision

    The controller object is built in the package's __init__.py; the sensor
    layer only displays its attributes.  Its evaluation is modelled from
    sections 4.3 and 4.4 of the specification. *)

Module PredictiveCharge.

Import Aggregator.

(** Modelled from the spec: [average_consumption()] of the
    ConsumptionHistoryTracker (section 4.3), which is not in the sensor
    layer: the arithmetic mean of the stored values, [None] on an empty
    history. *)
Definition average_consumption (history : list (BinarySensor.date * Qc)) : option Qc :=
  match history with
  | [] => None
  | _ => Some (Py.sum (snd <$> history) / Py.len history)
  end.

(** Modelled from the spec: "clamped at zero" of steps 2 and 4. *)
Definition clamp0 (x : Qc) : Qc := if decide (x < 0) then 0 else x.

(** Strict comparison as a boolean. *)
Definition ltb (x y : Qc) : bool := bool_decide (x < y).

(** Comparison of two quantities of a decision record; a quantity that is
    not there compares false. *)
Definition opt_ltb (x y : option Qc) : bool :=
  match x, y with
  | Some x, Some y => ltb x y
  | _, _ => false
  end.

(** Modelled from the spec: the configured minimum reserve policy of section
    4.4, "either a fixed percent or a value computed from reserve kWh over
    capacity". *)
Inductive reserve_policy : Type :=
| FixedPercent (percent : Qc)
| ReserveEnergy (kwh : Qc).

(** Modelled from the spec: [effective_min_soc] under either policy, as a
    percent of the capacity.  Evaluation has no failure of its own (section
    4.4), so the division is the total one of the rationals; what it gives
    on a capacity of 0 is not used by any property below. *)
Definition effective_min_soc_of (policy : reserve_policy) (capacity : Qc) : Qc :=
  match policy with
  | FixedPercent percent => percent
  | ReserveEnergy kwh => kwh / capacity * Qc_of_Z 100
  end.

(** Modelled from the spec: the [GridChargeDecision] of section 3. *)
Record GridChargeDecision : Type := {
  grid_charging_active : bool;
  in_charging_slot : bool;
  overridden : bool;
  record : BinarySensor.DecisionRecord
}.

Section Controller.

(** The time of day and the shape of a charging window are left to the
    host; so is the exact cutoff formula, which section 9 of the
    specification leaves open: [cutoff_of min_reserve deficit] is the minimum
    reserve adjusted upward by the projected deficit. *)
Variables Time Window : Type.
Variable falls_within : Time -> Window -> bool.
Variable cutoff_of : Qc -> Qc -> Qc.

(** Modelled from the spec: the configuration of section 4.4. *)
Record Config : Type := {
  reserve : reserve_policy;
  charging_windows : list Window;
  max_contracted_power : Qc
}.

(** Modelled from the spec: step 1 of section 4.4. *)
Definition is_in_charging_slot (cfg : Config) (now : Time) : bool :=
  existsb (falls_within now) (charging_windows cfg).

(** Modelled from the spec: steps 2 to 8 of section 4.4 without the
    override, which is what the decision record shows.  A missing stored
    energy total is handled like the two missing inputs step 7 names. *)
Definition computed_decision (cfg : Config) (in_slot : bool)
    (aggregate_state : SystemAggregateState) (avg_consumption solar_forecast : option Qc)
  : bool * BinarySensor.DecisionRecord :=
  let solar_forecast_kwh := default 0 solar_forecast in
  match avg_consumption, total_energy_capacity aggregate_state,
        total_stored_energy aggregate_state with
  | Some avg_consumption_kwh, Some capacity, Some stored =>
      let effective_min_soc := effective_min_soc_of (reserve cfg) capacity in
      let min_reserve_kwh := effective_min_soc / Qc_of_Z 100 * capacity in
      let usable_energy_kwh := clamp0 (stored - min_reserve_kwh) in
      let total_available_kwh := usable_energy_kwh + solar_forecast_kwh in
      let energy_deficit_kwh := clamp0 (avg_consumption_kwh - total_available_kwh) in
      let cutoff_energy_kwh := cutoff_of min_reserve_kwh energy_deficit_kwh in
      let active :=
        in_slot && ltb stored cutoff_energy_kwh && ltb 0 energy_deficit_kwh in
      let reason :=
        if negb in_slot then "outside charging window"
        else if active then "deficit projected, in slot, stored energy below cutoff"
        else "sufficient stored energy" in
      (active,
       {| BinarySensor.stored_energy_kwh := Some stored;
          BinarySensor.usable_energy_kwh := Some usable_energy_kwh;
          BinarySensor.min_reserve_kwh := Some min_reserve_kwh;
          BinarySensor.cutoff_energy_kwh := Some cutoff_energy_kwh;
          BinarySensor.effective_min_soc := Some effective_min_soc;
          BinarySensor.avg_consumption_kwh := Some avg_consumption_kwh;
          BinarySensor.total_available_kwh := Some total_available_kwh;
          BinarySensor.energy_deficit_kwh := Some energy_deficit_kwh;
          BinarySensor.solar_forecast_kwh := Some solar_forecast_kwh;
          BinarySensor.reason := reason |})
  | _, _, _ =>
      (false,
       {| BinarySensor.stored_energy_kwh := total_stored_energy aggregate_state;
          BinarySensor.usable_energy_kwh := None;
          BinarySensor.min_reserve_kwh := None;
          BinarySensor.cutoff_energy_kwh := None;
          BinarySensor.effective_min_soc := None;
          BinarySensor.avg_consumption_kwh := avg_consumption;
          BinarySensor.total_available_kwh := None;
          BinarySensor.energy_deficit_kwh := None;
          BinarySensor.solar_forecast_kwh := Some solar_forecast_kwh;
          BinarySensor.reason := "insufficient data" |})
  end.

(** Modelled from the spec: [evaluate_predictive_charging] of section 6.
    [override] is [None] without a manual override and [Some forced] with
    one; the forced value is used verbatim (step 6) and always wins (section
    8), the computed decision being kept in the record for diagnostics.
    The specification does not say in so many words whether the override
    also wins over the fallback of step 7; it is applied last here, as
    "always" reads. *)
Definition evaluate_predictive_charging (cfg : Config) (now : Time)
    (aggregate_state : SystemAggregateState) (avg_consumption solar_forecast : option Qc)
    (override : option bool) : GridChargeDecision :=
  let in_slot := is_in_charging_slot cfg now in
  let '(computed, decision) :=
    computed_decision cfg in_slot aggregate_state avg_consumption solar_forecast in
  {| grid_charging_active := default computed override;
     in_charging_slot := in_slot;
     overridden := bool_decide (override <> None);
     record := decision |}.

(** Modelled from the spec: one evaluation tick on the controller object.
    The previous decision record is replaced, never merged (step 8). *)
Definition evaluation_tick (cfg : Config) (now : Time)
    (aggregate_state : SystemAggregateState) (solar_forecast : option Qc)
    (override : option bool) (controller : BinarySensor.Controller)
  : BinarySensor.Controller :=
  let avg := average_consumption (BinarySensor._daily_consumption_history controller) in
  let d := evaluate_predictive_charging cfg now aggregate_state avg solar_forecast override in
  {| BinarySensor.grid_charging_active := grid_charging_active d;
     BinarySensor.in_predictive_charging_slot := in_charging_slot d;
     BinarySensor.last_evaluation_soc := BinarySensor.last_evaluation_soc controller;
     BinarySensor.predictive_charging_overridden := overridden d;
     BinarySensor.charging_time_slot := BinarySensor.charging_time_slot controller;
     BinarySensor.solar_forecast_sensor := BinarySensor.solar_forecast_sensor controller;
     BinarySensor.max_contracted_power := max_contracted_power cfg;
     BinarySensor._daily_consumption_history :=
       BinarySensor._daily_consumption_history controller;
     BinarySensor._last_decision_data := Some (record d) |}.

(** Modelled from the spec: the control flow of section 2.  A tick first
    recomputes the aggregate from the coordinators, then evaluates. *)
Definition system_tick (cfg : Config) (now : Time) (solar_forecast : option Qc)
    (override : option bool) (controller : BinarySensor.Controller)
  : M BinarySensor.Controller :=
  bind aggregate (fun aggregate_state =>
    ret (evaluation_tick cfg now aggregate_state solar_forecast override controller)).

End Controller.

Arguments is_in_charging_slot {Time Window} falls_within cfg now.
Arguments computed_decision {Window} cutoff_of cfg in_slot aggregate_state
  avg_consumption solar_forecast.
Arguments evaluate_predictive_charging {Time Window} falls_within cutoff_of cfg now
  aggregate_state avg_consumption solar_forecast override.
Arguments evaluation_tick {Time Window} falls_within cutoff_of cfg now
  aggregate_state solar_forecast override controller.
Arguments system_tick {Time Window} falls_within cutoff_of cfg now
  solar_forecast override controller.
Arguments reserve {Window} _.
Arguments charging_windows {Window} _.
Arguments max_contracted_power {Window} _.
Arguments Build_Config {Window} _ _ _.

(** An instance of the two parameters, for the examples: the cutoff as the
    reserve plus the deficit, and windows as pairs of minutes of the day, end
    excluded. *)
Definition reserve_plus_deficit (min_reserve_kwh energy_deficit_kwh : Qc) : Qc :=
  min_reserve_kwh + energy_deficit_kwh.

Definition minutes_within (now : nat) (w : nat * nat) : bool :=
  (fst w <=? now)%nat && (now <? snd w)%nat.

End PredictiveCharge.

(** ** binary_sensor.py, the remaining attributes *)

Module HysteresisAttributes.

Import Coordinator.
Import BinarySensor.
Import PredictiveChargingStatusSensor.

(** [ChargeHysteresisActiveSensor.extra_state_attributes]. *)
Definition extra_state_attributes (c : coordinator) : list (string * attr_value) :=
  let current_soc :=
    if Py.truthy (data c) then data c ≫= (fun d => Py.get d "battery_soc")
    else None in
  let charge_threshold := max_soc c - charge_hysteresis_percent c in
  [("max_soc", ANum (Some (max_soc c)));
   ("hysteresis_percent", ANum (Some (charge_hysteresis_percent c)));
   ("charge_resume_threshold", ANum (Some charge_threshold));
   ("current_soc", ANum current_soc)].

End HysteresisAttributes.

(** ** sensor.py

    The per-battery register sensor reads one entry of [coordinator.data] as
    it is: an int (a raw register word or a state code), a float (a scaled
    reading) or a string.  Here the snapshot keeps that distinction, which
    the numeric sensors above do not need. *)

Module Sensor.

Inductive data_value : Type :=
| VInt (z : Z)
| VFloat (q : Qc)
| VStr (s : string).

Inductive exn : Type :=
| TypeError.

Inductive result (A : Type) : Type :=
| Returned (a : A)
| Raised (e : exn).

Arguments Returned {A} a.
Arguments Raised {A} e.

(** What [native_value] reads of a sensor definition: the data key, the
    optional table of state names and the optional table of bit
    descriptions, both keyed by ints, and the optional data type. *)
Record definition : Type := {
  key : string;
  states : option (gmap Z string);
  bit_descriptions : option (gmap Z string);
  data_type : option string
}.

(** [states.get(value, value)] on a table keyed by ints.  A float that
    equals an int key finds it, as Python dicts compare keys by value. *)
Definition states_get (states : gmap Z string) (value : data_value) : data_value :=
  match value with
  | VInt z => from_option VStr value (states !! z)
  | VFloat q =>
      if decide (Qden q = 1%positive)
      then from_option VStr value (states !! Qnum q)
      else value
  | VStr _ => value
  end.

(** [value & mask]: defined on ints only. *)
Definition bitand (value : data_value) (mask : Z) : result Z :=
  match value with
  | VInt z => Returned (Z.land z mask)
  | _ => Raised TypeError
  end.

(** The loop over [range(max_bits)], from the positions still to visit. *)
Fixpoint bits_loop (value : data_value) (bit_descriptions : gmap Z string)
    (positions : list Z) (active_bits : list string) : result (list string) :=
  match positions with
  | [] => Returned active_bits
  | bit_pos :: rest =>
      match bitand value (Z.shiftl 1 bit_pos) with
      | Raised e => Raised e
      | Returned masked =>
          let active_bits :=
            if decide (masked <> 0%Z) then
              match bit_descriptions !! bit_pos with
              | Some description => active_bits ++ [description]
              | None => active_bits
              end
            else active_bits in
          bits_loop value bit_descriptions rest active_bits
      end
  end.

Definition max_bits (d : definition) : Z :=
  if decide (data_type d = Some "uint64") then 64%Z else 32%Z.

(** [MarstekVenusSensor.native_value], on the data of its coordinator. *)
Definition native_value (definition : definition) (data : option (gmap string data_value))
  : result (option data_value) :=
  match data with
  | None => Returned None
  | Some data =>
      match data !! key definition with
      | None => Returned None
      | Some value =>
          match states definition with
          | Some states => Returned (Some (states_get states value))
          | None =>
              match bit_descriptions definition with
              | Some bit_descriptions =>
                  match bits_loop value bit_descriptions
                          (seqZ 0 (max_bits definition)) [] with
                  | Raised e => Raised e
                  | Returned [] => Returned (Some (VStr "No active alarms/faults"))
                  | Returned active_bits =>
                      Returned (Some (VStr (String.concat ", " active_bits)))
                  end
              | None => Returned (Some value)
              end
          end
      end
  end.

End Sensor.

(** ** Vocabulary of the properties *)

(** The value a battery reports for a field: the entry of its snapshot, when
    it has a snapshot and the snapshot has the entry. *)
Definition reading (k : string) (c : coordinator) : option Qc :=
  Coordinator.data c ≫= (fun d => d !! k).

(** The present values of a field across the batteries, in order. *)
Definition readings (k : string) (cs : list coordinator) : list Qc :=
  omap (reading k) cs.

(** Sum of a list of numbers. *)
Definition total (xs : list Qc) : Qc := foldr Qcplus 0 xs.

(** Arithmetic mean of a non-empty list of numbers. *)
Definition mean (xs : list Qc) : Qc := total xs / Qc_of_Z (Z.of_nat (length xs)).

(** Stored energy of one battery, when it reports both fields. *)
Definition stored_energy_of (c : coordinator) : option Qc :=
  match reading "battery_soc" c, reading "battery_total_energy" c with
  | Some soc, Some total_energy => Some (soc / Qc_of_Z 100 * total_energy)
  | _, _ => None
  end.

(** The readings that count as charging and as discharging. *)
Definition charging (power : Qc) : option Qc :=
  if decide (0 < power) then Some power else None.

Definition discharging (power : Qc) : option Qc :=
  if decide (power < 0) then Some power else None.

(** A whole number (of watts, of percent). *)
Definition whole (x : Qc) : Prop := exists z : Z, x = Qc_of_Z z.

(** A computation reads only: its result depends on the coordinators alone,
    and it leaves them as they were. *)
Definition reads_only {A : Type} (m : M A) : Prop :=
  forall w1 w2 : World,
    coordinators w1 = coordinators w2 ->
    fst (m w1) = fst (m w2) /\ coordinators (snd (m w1)) = coordinators w1.

(** A computation returns: it does not raise, whatever the world. *)
Definition returns {A : Type} (m : M A) : Prop :=
  forall w : World, exists a : A, fst (m w) = Py.Returned a.

(** A percentage: between 0 and 100. *)
Definition percent (x : Qc) : Prop := 0 <= x /\ x <= Qc_of_Z 100.

(** One unit of the last decimal that rounding to [ndigits] decimals keeps. *)
Definition unit_of (ndigits : nat) : Qc := / Py.pow10 ndigits.

(** [v] is less than one such unit away from [x]. *)
Definition within_unit (ndigits : nat) (v x : Qc) : Prop :=
  x - unit_of ndigits < v /\ v < x + unit_of ndigits.

(** [x] has at most [ndigits] decimals. *)
Definition decimals (ndigits : nat) (x : Qc) : Prop :=
  exists z : Z, x = Qc_of_Z z / Py.pow10 ndigits.

Section Display.

Import BinarySensor.
Import PredictiveChargingStatusSensor.

(** What the status sensor displays of a controller that holds the decision
    record [r]. *)
Definition displays (controller : Controller) (r : DecisionRecord) : Prop :=
  let attrs := extra_state_attributes controller in
  let shown k v := attrs_get attrs k = Some v in
  shown "in_charging_slot" (ABool (in_predictive_charging_slot controller)) /\
  shown "overridden" (ABool (predictive_charging_overridden controller)) /\
  shown "stored_energy_kwh" (ANum (stored_energy_kwh r)) /\
  shown "usable_energy_kwh" (ANum (usable_energy_kwh r)) /\
  shown "min_reserve_kwh" (ANum (min_reserve_kwh r)) /\
  shown "cutoff_energy_kwh" (ANum (cutoff_energy_kwh r)) /\
  shown "effective_min_soc" (ANum (effective_min_soc r)) /\
  shown "avg_consumption_kwh" (ANum (avg_consumption_kwh r)) /\
  shown "total_available_kwh" (ANum (total_available_kwh r)) /\
  shown "energy_deficit_kwh" (ANum (energy_deficit_kwh r)) /\
  shown "solar_forecast_kwh" (ANum (solar_forecast_kwh r)) /\
  shown "decision_reason" (AStr (reason r)).

End Display.

(** The batteries that report a power reading, by name, in order: what the
    discharge sum lists in its debug line. *)
Definition reported_powers (cs : list coordinator) : list (string * Qc) :=
  omap (fun c => pair (Coordinator.name c) <$> reading "battery_power" c) cs.

(** The aggregate when nothing is known: no value, except the two power
    totals, which are 0. *)
Definition nothing_known : Aggregator.SystemAggregateState :=
  {| Aggregator.average_soc := None;
     Aggregator.total_charge_power := Some 0;
     Aggregator.total_discharge_power := Some 0;
     Aggregator.total_energy_capacity := None;
     Aggregator.total_stored_energy := None;
     Aggregator.total_daily_charge_energy := None;
     Aggregator.total_daily_discharge_energy := None |}.

(** The ten attribute names under which the status sensor shows a decision
    record. *)
Definition decision_attributes : list string :=
  ["stored_energy_kwh"; "usable_energy_kwh"; "min_reserve_kwh"; "cutoff_energy_kwh";
   "effective_min_soc"; "avg_consumption_kwh"; "total_available_kwh";
   "energy_deficit_kwh"; "solar_forecast_kwh"; "decision_reason"].

(** The descriptions of the bits of [z] that are set and described, among
    the first [width] bits, lowest bit first. *)
Definition described_bits (descriptions : gmap Z string) (width z : Z) : list string :=
  omap (fun i => if Z.testbit z i then descriptions !! i else None) (seqZ 0 width).

(** The text the register sensor shows for a list of active bits. *)
Definition alarm_text (active : list string) : string :=
  match active with
  | [] => "No active alarms/faults"
  | _ => String.concat ", " active
  end.

(** ** Concrete batteries for the examples *)

Definition battery (name : string) (data : option (gmap string Qc)) : coordinator :=
  {| Coordinator.name := name;
     Coordinator.host := name;
     Coordinator.data := data;
     Coordinator._hysteresis_active := false;
     Coordinator.enable_charge_hysteresis := true;
     Coordinator.max_soc := Qc_of_Z 100;
     Coordinator.charge_hysteresis_percent := Qc_of_Z 20 |}.

Definition world_of (cs : list coordinator) : World :=
  {| coordinators := cs; debug_log := [] |}.

(** A night window from 01:00 to 05:00, a reserve of 40 percent. *)
Definition night_config : PredictiveCharge.Config (nat * nat) :=
  PredictiveCharge.Build_Config (PredictiveCharge.FixedPercent (Qc_of_Z 40))
    [(60%nat, 300%nat)] (Qc_of_Z 3000).

(** A system of 5 kWh holding 2.5 kWh. *)
Definition half_full : Aggregator.SystemAggregateState :=
  {| Aggregator.average_soc := Some (Qc_of_Z 50);
     Aggregator.total_charge_power := Some 0;
     Aggregator.total_discharge_power := Some 0;
     Aggregator.total_energy_capacity := Some (Qc_of_Z 5);
     Aggregator.total_stored_energy := Some (Qc_of_Z 5 / Qc_of_Z 2);
     Aggregator.total_daily_charge_energy := None;
     Aggregator.total_daily_discharge_energy := None |}.

(** A controller that has not evaluated yet, without and with one day of
    consumption history (4 kWh). *)
Definition idle_controller : BinarySensor.Controller :=
  {| BinarySensor.grid_charging_active := false;
     BinarySensor.in_predictive_charging_slot := false;
     BinarySensor.last_evaluation_soc := None;
     BinarySensor.predictive_charging_overridden := false;
     BinarySensor.charging_time_slot := Some "01:00-05:00";
     BinarySensor.solar_forecast_sensor := None;
     BinarySensor.max_contracted_power := Qc_of_Z 3000;
     BinarySensor._daily_consumption_history := [];
     BinarySensor._last_decision_data := None |}.

Definition one_day_controller : BinarySensor.Controller :=
  {| BinarySensor.grid_charging_active := false;
     BinarySensor.in_predictive_charging_slot := false;
     BinarySensor.last_evaluation_soc := None;
     BinarySensor.predictive_charging_overridden := false;
     BinarySensor.charging_time_slot := Some "01:00-05:00";
     BinarySensor.solar_forecast_sensor := None;
     BinarySensor.max_contracted_power := Qc_of_Z 3000;
     BinarySensor._daily_consumption_history :=
       [({| BinarySensor.toordinal := 739000 |}, Qc_of_Z 4)];
     BinarySensor._last_decision_data := None |}.

(** * Properties *)

(** ** Numbers *)

Example round_examples :
  Py.round (Qc_of_Z 5 / Qc_of_Z 4) 0 = Qc_of_Z 1 /\
  Py.round (Qc_of_Z 1 / Qc_of_Z 2) 0 = 0 /\
  Py.round (Qc_of_Z 3 / Qc_of_Z 2) 0 = Qc_of_Z 2 /\
  Py.round (Qc_of_Z 12345 / Qc_of_Z 10000) 3 = Qc_of_Z 617 / Qc_of_Z 500 /\
  Py.abs (- Qc_of_Z 3) = Qc_of_Z 3.
Proof. repeat split; apply Qc_is_canon; vm_compute; reflexivity. Qed.

Lemma Qc_of_Z_0 : Qc_of_Z 0 = 0.
Proof. apply Qc_is_canon. reflexivity. Qed.

Lemma Qc_of_Z_1 : Qc_of_Z 1 = 1.
Proof. apply Qc_is_canon. reflexivity. Qed.

Lemma Qc_of_Z_eq_0 (z : Z) : Qc_of_Z z = 0 -> z = 0%Z.
Proof.
  intros H. apply (f_equal (fun q : Qc => Qnum (this q))) in H. exact H.
Qed.

Lemma Qc_of_Z_nonneg (z : Z) : (0 <= z)%Z -> 0 <= Qc_of_Z z.
Proof.
  intros H. unfold Qcle, Qle. simpl. lia.
Qed.

Lemma Qc_of_Z_pos (z : Z) : (0 < z)%Z -> 0 < Qc_of_Z z.
Proof.
  intros H. unfold Qclt, Qlt. simpl. lia.
Qed.

Lemma Qc_of_Z_plus (a b : Z) : Qc_of_Z a + Qc_of_Z b = Qc_of_Z (a + b).
Proof.
  apply Qc_is_canon. unfold Qcplus, Q2Qc. simpl this.
  rewrite Qred_correct. unfold Qeq, Qplus. simpl. lia.
Qed.

Lemma len_ne_0 {A : Type} (xs : list A) : xs <> [] -> Py.len xs <> 0.
Proof.
  intros Hne H. apply Qc_of_Z_eq_0 in H.
  destruct xs; [congruence | simpl in H; lia].
Qed.

Lemma foldl_plus_total (a : Qc) (xs : list Qc) : foldl Qcplus a xs = a + total xs.
Proof.
  revert a. induction xs as [|x xs IH]; intros a; simpl.
  - ring.
  - rewrite IH. ring.
Qed.

Lemma sum_total (xs : list Qc) : Py.sum xs = total xs.
Proof. unfold Py.sum. rewrite foldl_plus_total. ring. Qed.


Lemma pow10_pos (n : nat) : 0 < Py.pow10 n.
Proof.
  unfold Py.pow10. apply Qc_of_Z_pos. apply Z.pow_pos_nonneg; lia.
Qed.

Lemma round_half_even_nonneg (q : Q) : (0 <= q)%Q -> (0 <= Py.round_half_even q)%Z.
Proof.
  intros Hq. unfold Py.round_half_even.
  assert (Hn : (0 <= Qnum q)%Z) by (unfold Qle in Hq; simpl in Hq; lia).
  assert (Hf : (0 <= Qnum q / Z.pos (Qden q))%Z) by (apply Z.div_pos; lia).
  destruct (2 * (Qnum q mod Z.pos (Qden q)) ?= Z.pos (Qden q))%Z;
    [destruct (Z.even _)| |]; lia.
Qed.

Lemma round_half_even_inject_Z (z : Z) : Py.round_half_even (inject_Z z) = z.
Proof.
  unfold Py.round_half_even. simpl.
  rewrite Z.div_1_r, Z.mod_1_r. reflexivity.
Qed.

Lemma Qcdiv_nonneg (x y : Qc) : 0 <= x -> 0 < y -> 0 <= x / y.
Proof.
  intros Hx Hy.
  apply (Qcmult_lt_0_le_reg_r _ _ y Hy).
  rewrite Qcmult_0_l.
  replace (x / y * y) with (y * (x / y)) by ring.
  rewrite Qcmult_div_r; [assumption|].
  intros H. rewrite H in Hy. exact (Qclt_not_eq _ _ Hy eq_refl).
Qed.

Lemma round_nonneg (x : Qc) (n : nat) : 0 <= x -> 0 <= Py.round x n.
Proof.
  intros Hx. unfold Py.round.
  apply Qcdiv_nonneg; [|apply pow10_pos].
  apply Qc_of_Z_nonneg, round_half_even_nonneg.
  apply Qmult_le_0_compat; [exact Hx|].
  exact (Qclt_le_weak _ _ (pow10_pos n)).
Qed.

Lemma round_0 (n : nat) : Py.round 0 n = 0.
Proof.
  unfold Py.round.
  replace (Py.round_half_even (this 0 * this (Py.pow10 n))) with 0%Z.
  - rewrite Qc_of_Z_0. unfold Qcdiv. apply Qcmult_0_l.
  - unfold Py.round_half_even. simpl. reflexivity.
Qed.

Lemma round_whole (z : Z) : Py.round (Qc_of_Z z) 0 = Qc_of_Z z.
Proof.
  unfold Py.round.
  change (this (Qc_of_Z z) * this (Py.pow10 0))%Q with (inject_Z (z * 1)).
  rewrite round_half_even_inject_Z, Z.mul_1_r.
  change (Py.pow10 0) with (Qc_of_Z 1). rewrite Qc_of_Z_1.
  unfold Qcdiv. rewrite <- (Qcmult_1_l (/ 1)), Qcmult_inv_r, Qcmult_1_r; [reflexivity|].
  apply Q_apart_0_1.
Qed.

(** ** Rounding: error and monotonicity *)

Lemma round_half_even_bounds (q : Q) :
  (2 * Py.round_half_even q * Z.pos (Qden q) - Z.pos (Qden q) <= 2 * Qnum q
   <= 2 * Py.round_half_even q * Z.pos (Qden q) + Z.pos (Qden q))%Z.
Proof.
  unfold Py.round_half_even.
  pose proof (Z.div_mod (Qnum q) (Z.pos (Qden q)) ltac:(lia)) as Hdm.
  pose proof (Z.mod_pos_bound (Qnum q) (Z.pos (Qden q)) ltac:(lia)) as Hr.
  set (d := Z.pos (Qden q)) in *. set (f := (Qnum q / d)%Z) in *.
  set (r := (Qnum q mod d)%Z) in *.
  destruct (Z.compare_spec (2 * r) d) as [He|Hl|Hg].
  - destruct (Z.even f); nia.
  - nia.
  - nia.
Qed.

Lemma round_half_even_tie_even (q : Q) :
  (2 * Qnum q = 2 * Py.round_half_even q * Z.pos (Qden q) - Z.pos (Qden q) \/
   2 * Qnum q = 2 * Py.round_half_even q * Z.pos (Qden q) + Z.pos (Qden q))%Z ->
  Z.even (Py.round_half_even q) = true.
Proof.
  unfold Py.round_half_even.
  pose proof (Z.div_mod (Qnum q) (Z.pos (Qden q)) ltac:(lia)) as Hdm.
  pose proof (Z.mod_pos_bound (Qnum q) (Z.pos (Qden q)) ltac:(lia)) as Hr.
  set (d := Z.pos (Qden q)) in *. set (f := (Qnum q / d)%Z) in *.
  set (r := (Qnum q mod d)%Z) in *.
  destruct (Z.compare_spec (2 * r) d) as [He|Hl|Hg].
  - destruct (Z.even f) eqn:Ef.
    + intros _. exact Ef.
    + intros _. rewrite Z.even_add, Ef. reflexivity.
  - intros [H|H]; exfalso; nia.
  - intros [H|H]; exfalso; nia.
Qed.

Lemma round_half_even_mono (x y : Q) :
  (x <= y)%Q -> (Py.round_half_even x <= Py.round_half_even y)%Z.
Proof.
  intros Hxy. unfold Qle in Hxy.
  pose proof (round_half_even_bounds x) as [Hx _].
  pose proof (round_half_even_bounds y) as [_ Hy].
  pose proof (round_half_even_tie_even x) as Tx.
  pose proof (round_half_even_tie_even y) as Ty.
  set (rx := Py.round_half_even x) in *. set (ry := Py.round_half_even y) in *.
  set (dx := Z.pos (Qden x)) in *. set (dy := Z.pos (Qden y)) in *.
  assert (Hdx : (0 < dx)%Z) by (subst dx; lia).
  assert (Hdy : (0 < dy)%Z) by (subst dy; lia).
  destruct (Z_le_gt_dec rx ry) as [Hle|Hgt]; [exact Hle|exfalso].
  assert (H1 : ((2 * rx - 1) * (dx * dy) <= 2 * Qnum x * dy)%Z) by nia.
  assert (H2 : (2 * Qnum y * dx <= (2 * ry + 1) * (dx * dy))%Z) by nia.
  assert (H3 : (2 * Qnum x * dy <= 2 * Qnum y * dx)%Z) by nia.
  assert (Hpos : (0 < dx * dy)%Z) by nia.
  assert (Hrx : rx = (ry + 1)%Z) by nia.
  assert (E1 : ((2 * rx - 1) * (dx * dy) = 2 * Qnum x * dy)%Z) by nia.
  assert (E2 : (2 * Qnum y * dx = (2 * ry + 1) * (dx * dy))%Z) by nia.
  assert (Ex : (2 * Qnum x = 2 * rx * dx - dx)%Z) by nia.
  assert (Ey : (2 * Qnum y = 2 * ry * dy + dy)%Z) by nia.
  specialize (Tx (or_introl Ex)). specialize (Ty (or_intror Ey)).
  rewrite Hrx, Z.even_add, Ty in Tx. discriminate Tx.
Qed.

Lemma Qc_of_Z_le (a b : Z) : (a <= b)%Z -> Qc_of_Z a <= Qc_of_Z b.
Proof. intros H. unfold Qcle, Qle. simpl. lia. Qed.

Lemma Qcinv_nonneg (p : Qc) : 0 < p -> 0 <= / p.
Proof.
  intros Hp. rewrite <- (Qcmult_1_l (/ p)). apply (Qcdiv_nonneg 1 p); [|exact Hp].
  unfold Qcle, Qle. simpl. lia.
Qed.

Lemma round_mono (x y : Qc) (n : nat) : x <= y -> Py.round x n <= Py.round y n.
Proof.
  intros Hxy. unfold Py.round, Qcdiv.
  apply Qcmult_le_compat_r; [|apply Qcinv_nonneg, pow10_pos].
  apply Qc_of_Z_le, round_half_even_mono.
  apply Qmult_le_compat_r; [exact Hxy|].
  exact (Qclt_le_weak _ _ (pow10_pos n)).
Qed.

Lemma len_cons {A : Type} (x : A) (xs : list A) : Py.len (x :: xs) = Py.len xs + 1.
Proof.
  unfold Py.len. simpl length. rewrite Nat2Z.inj_succ, <- Z.add_1_r.
  rewrite <- Qc_of_Z_plus, Qc_of_Z_1. reflexivity.
Qed.

Lemma total_bounds (lo hi : Qc) (xs : list Qc) :
  Forall (fun x => lo <= x /\ x <= hi) xs ->
  lo * Py.len xs <= total xs /\ total xs <= hi * Py.len xs.
Proof.
  induction 1 as [|x xs [Hlo Hhi] _ [IHlo IHhi]].
  - change (Py.len (@nil Qc)) with (Qc_of_Z 0). simpl total.
    rewrite Qc_of_Z_0, !Qcmult_0_r. split; apply Qcle_refl.
  - rewrite len_cons. simpl total.
    replace (lo * (Py.len xs + 1)) with (lo + lo * Py.len xs) by ring.
    replace (hi * (Py.len xs + 1)) with (hi + hi * Py.len xs) by ring.
    split; apply Qcplus_le_compat; assumption.
Qed.

Lemma len_pos {A : Type} (xs : list A) : xs <> [] -> 0 < Py.len xs.
Proof.
  intros Hne. apply Qc_of_Z_pos. destruct xs; [contradiction | simpl; lia].
Qed.

Lemma mean_bounds (lo hi : Qc) (xs : list Qc) :
  xs <> [] ->
  Forall (fun x => lo <= x /\ x <= hi) xs ->
  lo <= mean xs /\ mean xs <= hi.
Proof.
  intros Hne Hall. destruct (total_bounds lo hi xs Hall) as [Hlo Hhi].
  pose proof (len_pos xs Hne) as Hlen.
  assert (Hmul : mean xs * Py.len xs = total xs).
  { unfold mean. fold (Py.len xs). rewrite Qcmult_comm. apply Qcmult_div_r.
    apply len_ne_0, Hne. }
  split; apply (Qcmult_lt_0_le_reg_r _ _ (Py.len xs) Hlen); rewrite Hmul; assumption.
Qed.

Lemma total_cons (x : Qc) (xs : list Qc) : total (x :: xs) = x + total xs.
Proof. reflexivity. Qed.

Lemma total_net (xs : list Qc) :
  total (filter (fun p => 0 < p) xs) - total (Py.abs <$> filter (fun p => p < 0) xs)
  = total xs.
Proof.
  induction xs as [|x xs IH].
  - change (0 - 0 = 0). ring.
  - rewrite !filter_cons, (total_cons x xs), <- IH.
    destruct (decide (0 < x)) as [Hp|Hp], (decide (x < 0)) as [Hn|Hn];
      rewrite ?fmap_cons, ?total_cons.
    + exfalso. exact (Qclt_not_le _ _ Hp (Qclt_le_weak _ _ Hn)).
    + ring.
    + unfold Py.abs at 1. destruct (decide (x < 0)); [|contradiction]. ring.
    + assert (x = 0) as ->.
      { apply Qcle_antisym; apply Qcnot_lt_le; assumption. }
      ring.
Qed.

Lemma pow10_ne_0 (n : nat) : Py.pow10 n <> 0.
Proof.
  intros H. pose proof (pow10_pos n) as Hp. rewrite H in Hp.
  exact (Qclt_not_eq _ _ Hp eq_refl).
Qed.

Lemma Qc_of_Z_mult (a b : Z) : Qc_of_Z a * Qc_of_Z b = Qc_of_Z (a * b).
Proof.
  apply Qc_is_canon. unfold Qcmult, Q2Qc. simpl this.
  rewrite Qred_correct. unfold Qeq, Qmult. simpl. lia.
Qed.

Lemma round_whole_any (z : Z) (n : nat) : Py.round (Qc_of_Z z) n = Qc_of_Z z.
Proof.
  unfold Py.round, Py.pow10.
  change (this (Qc_of_Z z) * this (Qc_of_Z (10 ^ Z.of_nat n)))%Q
    with (inject_Z (z * 10 ^ Z.of_nat n)).
  rewrite round_half_even_inject_Z, <- Qc_of_Z_mult.
  apply Qcdiv_mult_l. apply pow10_ne_0.
Qed.

Lemma round_half_even_proper (x y : Q) :
  (x == y)%Q -> Py.round_half_even x = Py.round_half_even y.
Proof.
  intros H. apply Z.le_antisymm; apply round_half_even_mono; rewrite H; apply Qle_refl.
Qed.

Lemma Qcinv_pos (p : Qc) : 0 < p -> 0 < / p.
Proof.
  intros Hp. destruct (Qcle_lt_or_eq _ _ (Qcinv_nonneg p Hp)) as [H|H]; [exact H|].
  exfalso. assert (Hne : p <> 0).
  { intros H0. rewrite H0 in Hp. exact (Qclt_not_eq _ _ Hp eq_refl). }
  pose proof (Qcmult_inv_r p Hne) as H1. rewrite <- H, Qcmult_0_r in H1.
  symmetry in H1. exact (Q_apart_0_1 H1).
Qed.

(** The nearest integer is less than one away. *)
Lemma round_scaled_bounds (x : Qc) (n : nat) :
  let r := Py.round_half_even (x * Py.pow10 n) in
  Qc_of_Z (r - 1) < x * Py.pow10 n /\ x * Py.pow10 n < Qc_of_Z (r + 1).
Proof.
  intros r. subst r.
  pose proof (round_half_even_bounds (this x * this (Py.pow10 n))%Q) as [Hlo Hhi].
  set (q := (this x * this (Py.pow10 n))%Q) in *.
  set (r := Py.round_half_even q) in *.
  assert (Hq : (this (x * Py.pow10 n) == q)%Q) by apply Qred_correct.
  unfold Qclt. rewrite Hq. unfold Qlt.
  change (Qnum (this (Qc_of_Z (r - 1)))) with (r - 1)%Z.
  change (Qnum (this (Qc_of_Z (r + 1)))) with (r + 1)%Z.
  change (QDen (this (Qc_of_Z (r - 1)))) with 1%Z.
  change (QDen (this (Qc_of_Z (r + 1)))) with 1%Z.
  assert (Hd : (0 < QDen q)%Z) by reflexivity.
  split; nia.
Qed.

(** Rounding moves a number by less than one unit of the last decimal
    kept. *)
Lemma round_within_unit (x : Qc) (n : nat) : within_unit n (Py.round x n) x.
Proof.
  destruct (round_scaled_bounds x n) as [Hlo Hhi].
  set (r := Py.round_half_even (x * Py.pow10 n)) in *.
  pose proof (pow10_pos n) as Hp. pose proof (Qcinv_pos _ Hp) as Hi.
  assert (Hne : Py.pow10 n <> 0) by apply pow10_ne_0.
  assert (Hx : x * Py.pow10 n * / Py.pow10 n = x) by (apply Qcdiv_mult_l, Hne).
  assert (Hv : Py.round x n = Qc_of_Z r * / Py.pow10 n) by reflexivity.
  apply (Qcmult_lt_compat_r _ _ _ Hi) in Hlo.
  apply (Qcmult_lt_compat_r _ _ _ Hi) in Hhi.
  rewrite Hx in Hlo, Hhi.
  replace (r - 1)%Z with (r + -1)%Z in Hlo by lia.
  rewrite <- Qc_of_Z_plus in Hlo, Hhi.
  unfold within_unit, unit_of. rewrite Hv. split.
  - apply (proj2 (Qcplus_lt_mono_r _ _ (/ Py.pow10 n))).
    replace (x - / Py.pow10 n + / Py.pow10 n) with x by ring.
    replace (Qc_of_Z r * / Py.pow10 n + / Py.pow10 n)
      with ((Qc_of_Z r + Qc_of_Z 1) * / Py.pow10 n) by (rewrite Qc_of_Z_1; ring).
    exact Hhi.
  - replace (x + / Py.pow10 n) with (x - - / Py.pow10 n) by ring.
    apply (proj2 (Qcplus_lt_mono_r _ _ (- / Py.pow10 n))).
    replace (x - - / Py.pow10 n + - / Py.pow10 n) with x by ring.
    replace (Qc_of_Z r * / Py.pow10 n + - / Py.pow10 n)
      with ((Qc_of_Z r + Qc_of_Z (-1)) * / Py.pow10 n).
    + exact Hlo.
    + replace (Qc_of_Z (-1)) with (- (1 : Qc)) by (apply Qc_is_canon; reflexivity). ring.
Qed.

(** Rounding to 0 decimals gives a whole number. *)
Lemma round_is_whole (x : Qc) : whole (Py.round x 0).
Proof.
  exists (Py.round_half_even (x * Py.pow10 0)). unfold Py.round.
  change (Py.pow10 0) with (Qc_of_Z 1). rewrite Qc_of_Z_1.
  unfold Qcdiv. rewrite <- (Qcmult_1_l (/ 1)), Qcmult_inv_r, Qcmult_1_r; [reflexivity|].
  apply Q_apart_0_1.
Qed.

(** Rounding to [n] decimals gives a number of at most [n] decimals. *)
Lemma round_has_decimals (x : Qc) (n : nat) : decimals n (Py.round x n).
Proof. eexists. reflexivity. Qed.

(** A number that has no more decimals than are kept is left as it is. *)
Lemma round_decimals (x : Qc) (n : nat) : decimals n x -> Py.round x n = x.
Proof.
  intros [z ->]. unfold Py.round.
  rewrite (round_half_even_proper _ (inject_Z z)); [rewrite round_half_even_inject_Z; reflexivity|].
  assert (H : Qc_of_Z z / Py.pow10 n * Py.pow10 n = Qc_of_Z z).
  { unfold Qcdiv. rewrite <- Qcmult_assoc, Qcmult_inv_l, Qcmult_1_r by apply pow10_ne_0.
    reflexivity. }
  rewrite <- (Qred_correct (this (Qc_of_Z z / Py.pow10 n) * this (Py.pow10 n))).
  change (Qred (this (Qc_of_Z z / Py.pow10 n) * this (Py.pow10 n)))
    with (this (Qc_of_Z z / Py.pow10 n * Py.pow10 n)).
  rewrite H. reflexivity.
Qed.

(** ** Computations that only read the coordinators *)

Lemma reads_only_ret {A : Type} (a : A) : reads_only (ret a).
Proof. intros w1 w2 H. split; reflexivity. Qed.

Lemma reads_only_lift {A : Type} (r : Py.result A) : reads_only (lift r).
Proof. intros w1 w2 H. split; reflexivity. Qed.

Lemma reads_only_read_coordinators : reads_only read_coordinators.
Proof. intros w1 w2 H. simpl. split; [congruence | reflexivity]. Qed.

Lemma reads_only_logger_debug (r : log_record) : reads_only (logger_debug r).
Proof. intros w1 w2 H. split; reflexivity. Qed.

Lemma reads_only_bind {A B : Type} (m : M A) (k : A -> M B) :
  reads_only m -> (forall a, reads_only (k a)) -> reads_only (bind m k).
Proof.
  intros Hm Hk w1 w2 H. unfold bind.
  destruct (Hm w1 w2 H) as [Hr Hc1].
  destruct (Hm w2 w1 (eq_sym H)) as [_ Hc2].
  destruct (m w1) as [r1 w1'], (m w2) as [r2 w2']. simpl in *. subst r2.
  destruct r1 as [a|e]; simpl.
  - destruct (Hk a w1' w2') as [Hr' Hc']; [congruence|].
    split; [assumption | congruence].
  - split; [reflexivity | assumption].
Qed.

Create HintDb reads_only.
#[export] Hint Resolve reads_only_ret reads_only_lift reads_only_read_coordinators
  reads_only_logger_debug : reads_only.

Ltac reads_only_step :=
  match goal with
  | |- reads_only (bind _ _) => apply reads_only_bind; [|intros ?]
  | |- reads_only (let '(_, _) := ?x in _) => destruct x
  | |- reads_only (if ?b then _ else _) => destruct b
  | |- reads_only (match ?x with _ => _ end) => destruct x
  | |- reads_only _ => solve [auto with reads_only]
  end.

(** ** The loops of the aggregate sensor *)

Section Loops.

Import AggregateSensors.

Lemma reading_not_truthy (k : string) (c : coordinator) :
  Py.truthy (Coordinator.data c) = false -> reading k c = None.
Proof.
  unfold reading, Py.truthy. destruct (Coordinator.data c) as [d|]; [|reflexivity].
  intros H. apply bool_decide_eq_false in H.
  destruct (decide (d = empty)) as [->|Hne]; [|contradiction].
  simpl. apply lookup_empty.
Qed.

Lemma omap_bind {A B C : Type} (f : A -> option B) (g : B -> option C) (xs : list A) :
  omap (fun x => f x ≫= g) xs = omap g (omap f xs).
Proof.
  induction xs as [|x xs IH]; simpl; [reflexivity|].
  destruct (f x) as [y|]; simpl; [|exact IH].
  destruct (g y); [f_equal|]; exact IH.
Qed.

Lemma omap_fmap {A B C : Type} (f : A -> option B) (g : B -> C) (xs : list A) :
  omap (fun x => g <$> f x) xs = g <$> omap f xs.
Proof.
  induction xs as [|x xs IH]; simpl; [reflexivity|].
  destruct (f x) as [y|]; simpl; [f_equal|]; exact IH.
Qed.

Lemma omap_keep {A : Type} (P : A -> Prop) `{!forall x, Decision (P x)} (xs : list A) :
  omap (fun x => if decide (P x) then Some x else None) xs = filter P xs.
Proof.
  induction xs as [|x xs IH]; simpl; [reflexivity|].
  rewrite filter_cons. destruct (decide (P x)); [f_equal|]; exact IH.
Qed.

(** A loop that adds a contribution of some of the coordinators and notes
    whether any contributed. *)
Lemma sum_loop (contrib : coordinator -> option Qc)
    (step : Qc * bool -> coordinator -> Qc * bool) :
  (forall t h c, step (t, h) c =
     match contrib c with Some x => (t + x, true) | None => (t, h) end) ->
  forall cs t h,
    foldl step (t, h) cs =
      (t + total (omap contrib cs), h || bool_decide (omap contrib cs <> [])).
Proof.
  intros Hstep cs. induction cs as [|c cs IH]; intros t h; simpl.
  - rewrite Qcplus_0_r, orb_false_r. reflexivity.
  - rewrite Hstep. destruct (contrib c) as [x|]; rewrite IH.
    + rewrite (bool_decide_eq_true_2 (_ :: _ <> [])) by discriminate.
      rewrite orb_true_r. simpl. f_equal. symmetry. apply Qcplus_assoc.
    + reflexivity.
Qed.

Lemma average_soc_loop (cs : list coordinator) (acc : list Qc) :
  foldl average_soc_step acc cs = acc ++ readings "battery_soc" cs.
Proof.
  revert acc. induction cs as [|c cs IH]; intros acc; simpl.
  - rewrite app_nil_r. reflexivity.
  - rewrite IH. unfold average_soc_step.
    change (Coordinator.data c ≫= _) with (reading "battery_soc" c).
    destruct (Py.truthy (Coordinator.data c)) eqn:Ht.
    + destruct (reading "battery_soc" c); [rewrite <- app_assoc|]; reflexivity.
    + rewrite (reading_not_truthy _ _ Ht). reflexivity.
Qed.

Lemma charge_power_loop (cs : list coordinator) :
  foldl charge_power_step (0, false) cs =
    (total (filter (fun p => 0 < p) (readings "battery_power" cs)),
     bool_decide (filter (fun p => 0 < p) (readings "battery_power" cs) <> [])).
Proof.
  rewrite (sum_loop (fun c => reading "battery_power" c ≫= charging)).
  - rewrite omap_bind. unfold charging.
    rewrite (omap_keep (fun p => 0 < p)).
    rewrite Qcplus_0_l. reflexivity.
  - intros t h c. unfold charge_power_step.
    change (Coordinator.data c ≫= _) with (reading "battery_power" c).
    destruct (Py.truthy (Coordinator.data c)) eqn:Ht.
    + destruct (reading "battery_power" c) as [p|]; simpl; [|reflexivity].
      unfold charging. destruct (decide (0 < p)); reflexivity.
    + rewrite (reading_not_truthy _ _ Ht). reflexivity.
Qed.

Lemma discharge_power_loop (cs : list coordinator) :
  forall t h bp,
    fst (foldl discharge_power_step (t, h, bp) cs) =
      foldl (fun st c =>
               match reading "battery_power" c ≫= discharging with
               | Some p => (fst st + Py.abs p, true)
               | None => st
               end) (t, h) cs.
Proof.
  induction cs as [|c cs IH]; intros t h bp; simpl; [reflexivity|].
  change (Coordinator.data c ≫= _) with (reading "battery_power" c).
  destruct (Py.truthy (Coordinator.data c)) eqn:Ht.
  - destruct (reading "battery_power" c) as [p|]; simpl; [|apply IH].
    unfold discharging. destruct (decide (p < 0)); apply IH.
  - rewrite (reading_not_truthy _ _ Ht). apply IH.
Qed.

Lemma discharge_power_total (cs : list coordinator) :
  fst (foldl discharge_power_step (0, false, []) cs) =
    (total (Py.abs <$> filter (fun p => p < 0) (readings "battery_power" cs)),
     bool_decide (filter (fun p => p < 0) (readings "battery_power" cs) <> [])).
Proof.
  rewrite discharge_power_loop.
  rewrite (sum_loop (fun c => Py.abs <$> (reading "battery_power" c ≫= discharging))).
  - rewrite Qcplus_0_l, omap_fmap, omap_bind. unfold discharging.
    rewrite (omap_keep (fun p => p < 0)). fold (readings "battery_power" cs). simpl. f_equal.
    apply bool_decide_ext.
    destruct (filter _ _); simpl; split; congruence.
  - intros t h c. destruct (reading "battery_power" c ≫= discharging); reflexivity.
Qed.

Lemma sum_key_loop (k : string) (cs : list coordinator) :
  foldl (sum_key_step k) (0, false) cs =
    (total (readings k cs), bool_decide (readings k cs <> [])).
Proof.
  rewrite (sum_loop (reading k)).
  - rewrite Qcplus_0_l. reflexivity.
  - intros t h c. unfold sum_key_step.
    change (Coordinator.data c ≫= _) with (reading k c).
    destruct (Py.truthy (Coordinator.data c)) eqn:Ht.
    + destruct (reading k c); reflexivity.
    + rewrite (reading_not_truthy _ _ Ht). reflexivity.
Qed.

Lemma stored_energy_loop (cs : list coordinator) :
  foldl stored_energy_step (0, false) cs =
    (total (omap stored_energy_of cs), bool_decide (omap stored_energy_of cs <> [])).
Proof.
  rewrite (sum_loop stored_energy_of).
  - rewrite Qcplus_0_l. reflexivity.
  - intros t h c. unfold stored_energy_step, stored_energy_of.
    change (Coordinator.data c ≫= (fun d => Py.get d "battery_soc"))
      with (reading "battery_soc" c).
    change (Coordinator.data c ≫= (fun d => Py.get d "battery_total_energy"))
      with (reading "battery_total_energy" c).
    destruct (Py.truthy (Coordinator.data c)) eqn:Ht.
    + destruct (reading "battery_soc" c), (reading "battery_total_energy" c); reflexivity.
    + rewrite !(reading_not_truthy _ _ Ht). reflexivity.
Qed.

End Loops.

(** ** The aggregate sensors *)

(** The key of a sensor of the table fixes its definition. *)
Ltac table_sensor H :=
  vm_compute in H; injection H as <-.

(** Select the method [native_value] dispatches to and enter it. *)
Ltac table_method f :=
  match goal with
  | |- context [AggregateSensors.native_value ?s] =>
      change (AggregateSensors.native_value s) with (f s)
  end;
  unfold f, bind, read_coordinators; cbv beta iota.

Section Aggregates.

Import AggregateSensors.

Lemma whole_total (xs : list Qc) : Forall whole xs -> whole (total xs).
Proof.
  induction 1 as [|x xs [z ->] _ [s IH]]; simpl.
  - exists 0%Z. symmetry. apply Qc_of_Z_0.
  - exists (z + s)%Z. rewrite IH. apply Qc_of_Z_plus.
Qed.

Lemma whole_abs (x : Qc) : whole x -> whole (Py.abs x).
Proof.
  intros [z ->]. unfold Py.abs. destruct (decide (Qc_of_Z z < 0)).
  - exists (- z)%Z. apply Qc_is_canon. unfold Qcopp, Q2Qc. simpl this.
    rewrite Qred_correct. reflexivity.
  - exists z. reflexivity.
Qed.

Lemma round_whole_total (xs : list Qc) :
  Forall whole xs -> Py.round (total xs) 0 = total xs.
Proof.
  intros H. destruct (whole_total xs H) as [z ->]. apply round_whole.
Qed.


Lemma charge_power_value (self : MarstekVenusAggregateSensor) (w : World) :
  sensor_for "system_charge_power" = Some self ->
  native_value self w =
    (Py.Returned (Some (Py.round
       (total (filter (fun p => 0 < p) (readings "battery_power" (coordinators w)))) 0)), w).
Proof.
  intros H. table_sensor H.
  table_method _calculate_total_charge_power.
  rewrite charge_power_loop.
  destruct (filter _ _) as [|p ps]; simpl.
  - rewrite round_0. reflexivity.
  - reflexivity.
Qed.

Lemma discharge_power_value (self : MarstekVenusAggregateSensor) (w : World) :
  sensor_for "system_discharge_power" = Some self ->
  fst (native_value self w) =
    Py.Returned (Some (Py.round
       (total (Py.abs <$> filter (fun p => p < 0)
                 (readings "battery_power" (coordinators w)))) 0)).
Proof.
  intros H. table_sensor H.
  table_method _calculate_total_discharge_power.
  pose proof (discharge_power_total (coordinators w)) as Hloop.
  destruct (foldl discharge_power_step _ _) as [[t h] bp]. simpl in Hloop.
  injection Hloop as -> ->.
  destruct (filter _ _) as [|p ps]; destruct bp; simpl; try reflexivity;
    rewrite round_0; reflexivity.
Qed.

Lemma average_soc_value (self : MarstekVenusAggregateSensor) (w : World) :
  sensor_for "system_soc" = Some self ->
  native_value self w =
    (Py.Returned
       match readings "battery_soc" (coordinators w) with
       | [] => None
       | socs => Some (Py.round (mean socs) 0)
       end, w).
Proof.
  intros H. table_sensor H.
  table_method _calculate_average_soc.
  rewrite average_soc_loop. simpl app.
  destruct (readings "battery_soc" (coordinators w)) as [|soc socs] eqn:E.
  - reflexivity.
  - unfold lift, Py.truediv.
    destruct (decide (Py.len (soc :: socs) = 0)) as [H0|_].
    + exfalso. revert H0. apply len_ne_0. discriminate.
    + cbv beta iota. rewrite sum_total. reflexivity.
Qed.

Lemma stored_energy_value (self : MarstekVenusAggregateSensor) (w : World) :
  sensor_for "system_stored_energy" = Some self ->
  native_value self w =
    (Py.Returned
       match omap stored_energy_of (coordinators w) with
       | [] => None
       | stored => Some (Py.round (total stored) 3)
       end, w).
Proof.
  intros H. table_sensor H.
  table_method _calculate_total_stored_energy.
  unfold sum_key.
  rewrite stored_energy_loop.
  destruct (omap stored_energy_of (coordinators w)); reflexivity.
Qed.

(** C4.  The system SOC sensor returns [None] exactly when no battery reports
    a SOC.  Otherwise it returns the arithmetic mean of the SOC values that
    are present, rounded to 0 decimals: a whole number less than one away
    from the mean, and, for readings that are whole percentages, exactly the
    mean rounded with ties going to the even neighbour.  When the only SOC
    reported is 50 it returns 50. *)
Theorem average_soc_rounded_mean (self : MarstekVenusAggregateSensor) (w : World) :
  sensor_for "system_soc" = Some self ->
  let socs := readings "battery_soc" (coordinators w) in
  (fst (native_value self w) = Py.Returned None <-> socs = []) /\
  (socs <> [] ->
     exists v : Qc,
       fst (native_value self w) = Py.Returned (Some v) /\
       whole v /\
       within_unit 0 v (mean socs)) /\
  (socs <> [] -> Forall whole socs -> Forall percent socs ->
     fst (native_value self w) = Py.Returned (Some (Py.round (mean socs) 0))) /\
  (socs = [Qc_of_Z 50] -> fst (native_value self w) = Py.Returned (Some (Qc_of_Z 50))).
Proof.
  intros H socs. rewrite (average_soc_value self w H). fold socs. simpl fst.
  split; [|split; [|split]].
  - destruct socs; split; try reflexivity; discriminate.
  - intros Hne. exists (Py.round (mean socs) 0).
    split; [destruct socs; [contradiction | reflexivity]|].
    split; [apply round_is_whole | apply round_within_unit].
  - intros Hne _ _. destruct socs; [contradiction | reflexivity].
  - intros ->. do 2 f_equal. apply Qc_is_canon. vm_compute. reflexivity.
Qed.

Lemma average_soc_rounded_mean_witness :
  exists self,
    sensor_for "system_soc" = Some self /\
    let w := world_of [battery "a" None;
                       battery "b" (Some {[ "battery_soc" := Qc_of_Z 68 ]});
                       battery "c" (Some {[ "battery_soc" := Qc_of_Z 69 ]});
                       battery "d" (Some {[ "battery_power" := Qc_of_Z 120 ]})] in
    let socs := readings "battery_soc" (coordinators w) in
    socs <> [] /\ Forall whole socs /\ Forall percent socs /\
    fst (native_value self w) = Py.Returned (Some (Qc_of_Z 68)).
Proof.
  eexists. split; [reflexivity|]. intros w socs.
  assert (Hne : socs <> []) by discriminate.
  assert (Hwhole : Forall whole socs).
  { repeat constructor; eexists; reflexivity. }
  assert (Hpercent : Forall percent socs).
  { repeat constructor; vm_compute; discriminate. }
  split; [exact Hne|]. split; [exact Hwhole|]. split; [exact Hpercent|].
  match goal with
  | |- fst (native_value ?s w) = _ =>
      destruct (average_soc_rounded_mean s w eq_refl) as (_ & _ & Hexact & _)
  end.
  rewrite (Hexact Hne Hwhole Hpercent).
  do 2 f_equal. apply Qc_is_canon. vm_compute. reflexivity.
Defined.






(** C8.  The aggregate sensor is available if and only if at least one
    coordinator has data that is not [None]. *)
Theorem available_iff_some_data (self : MarstekVenusAggregateSensor) (w : World) :
  exists b : bool,
    available self w = (Py.Returned b, w) /\
    (b = true <-> exists c, c ∈ coordinators w /\ Coordinator.data c <> None).
Proof.
  eexists. split; [reflexivity|].
  rewrite existsb_exists. split.
  - intros (c & Hin & Hc). exists c. split.
    + apply list_elem_of_In. exact Hin.
    + exact (bool_decide_eq_true_1 _ Hc).
  - intros (c & Hin & Hc). exists c. split.
    + apply list_elem_of_In. exact Hin.
    + exact (bool_decide_eq_true_2 _ Hc).
Qed.

Lemma reads_only_sum_key (k : string) (self : MarstekVenusAggregateSensor) :
  reads_only (sum_key k self).
Proof. unfold sum_key. repeat reads_only_step. Qed.

Lemma reads_only_native_value (self : MarstekVenusAggregateSensor) :
  reads_only (native_value self).
Proof.
  unfold native_value.
  repeat match goal with
         | |- reads_only (if decide ?P then _ else _) => destruct (decide P)
         end.
  - unfold _calculate_average_soc. repeat reads_only_step.
  - unfold _calculate_total_charge_power. repeat reads_only_step.
  - unfold _calculate_total_discharge_power. repeat reads_only_step.
  - apply reads_only_sum_key.
  - unfold _calculate_total_stored_energy. repeat reads_only_step.
  - apply reads_only_sum_key.
  - apply reads_only_sum_key.
  - apply reads_only_ret.
Qed.

Lemma reads_only_native_value_of (k : string) : reads_only (Aggregator.native_value_of k).
Proof.
  unfold Aggregator.native_value_of.
  destruct (sensor_for k); [apply reads_only_native_value | apply reads_only_ret].
Qed.

Lemma reads_only_aggregate : reads_only Aggregator.aggregate.
Proof.
  unfold Aggregator.aggregate.
  repeat (apply reads_only_bind; [apply reads_only_native_value_of | intros ?]).
  apply reads_only_ret.
Qed.

Lemma returns_ret {A : Type} (a : A) : returns (ret a).
Proof. intros w. exists a. reflexivity. Qed.

Lemma returns_bind {A B : Type} (m : M A) (k : A -> M B) :
  returns m -> (forall a, returns (k a)) -> returns (bind m k).
Proof.
  intros Hm Hk w. unfold bind.
  destruct (Hm w) as [a Ha]. destruct (m w) as [r w']. simpl in Ha. subst r.
  apply Hk.
Qed.

Lemma returns_sum_key (k : string) (self : MarstekVenusAggregateSensor) :
  returns (sum_key k self).
Proof.
  intros w. unfold sum_key, bind, read_coordinators. cbv beta iota.
  destruct (foldl _ _ _) as [t []]; eexists; reflexivity.
Qed.

Lemma returns_native_value (self : MarstekVenusAggregateSensor) :
  returns (native_value self).
Proof.
  intros w. unfold native_value.
  repeat match goal with
         | |- context [if decide ?P then _ else _] => destruct (decide P)
         end.
  - unfold _calculate_average_soc, bind, read_coordinators. cbv beta iota.
    destruct (foldl average_soc_step [] (coordinators w)) as [|soc socs] eqn:E.
    + eexists. reflexivity.
    + unfold lift, Py.truediv.
      destruct (decide (Py.len (soc :: socs) = 0)) as [H0|_].
      * exfalso. revert H0. apply len_ne_0. discriminate.
      * eexists. reflexivity.
  - unfold _calculate_total_charge_power, bind, read_coordinators. cbv beta iota.
    destruct (foldl _ _ _) as [t []]; eexists; reflexivity.
  - unfold _calculate_total_discharge_power, bind, read_coordinators, logger_debug.
    cbv beta iota.
    destruct (foldl _ _ _) as [[t h] bp]. destruct bp, h; eexists; reflexivity.
  - apply returns_sum_key.
  - unfold _calculate_total_stored_energy, bind, read_coordinators. cbv beta iota.
    destruct (foldl _ _ _) as [t []]; eexists; reflexivity.
  - apply returns_sum_key.
  - apply returns_sum_key.
  - eexists. reflexivity.
Qed.

Lemma returns_native_value_of (k : string) : returns (Aggregator.native_value_of k).
Proof.
  unfold Aggregator.native_value_of.
  destruct (sensor_for k); [apply returns_native_value | apply returns_ret].
Qed.

Lemma returns_aggregate : returns Aggregator.aggregate.
Proof.
  unfold Aggregator.aggregate.
  repeat (apply returns_bind; [apply returns_native_value_of | intros ?]).
  apply returns_ret.
Qed.

Lemma reads_only_twice {A : Type} (m : M A) (w : World) :
  reads_only m ->
  fst (m (snd (m w))) = fst (m w) /\
  coordinators (snd (m w)) = coordinators w /\
  coordinators (snd (m (snd (m w)))) = coordinators w.
Proof.
  intros Hm.
  destruct (Hm w w eq_refl) as [_ H1].
  destruct (Hm (snd (m w)) w H1) as [Hr H2].
  repeat split; congruence.
Qed.

(** C7.  Evaluating an aggregate sensor, or the whole aggregate, a second
    time over the same snapshots gives the same result, and neither
    evaluation changes the snapshots. *)
Theorem aggregation_is_pure (self : MarstekVenusAggregateSensor) (w : World) :
  let first := native_value self w in
  let second := native_value self (snd first) in
  let first_state := Aggregator.aggregate w in
  let second_state := Aggregator.aggregate (snd first_state) in
  fst second = fst first /\
  coordinators (snd first) = coordinators w /\
  coordinators (snd second) = coordinators w /\
  fst second_state = fst first_state /\
  coordinators (snd first_state) = coordinators w /\
  coordinators (snd second_state) = coordinators w.
Proof.
  intros first second first_state second_state.
  destruct (reads_only_twice (native_value self) w (reads_only_native_value self))
    as (H1 & H2 & H3).
  destruct (reads_only_twice Aggregator.aggregate w reads_only_aggregate)
    as (H4 & H5 & H6).
  repeat split; assumption.
Qed.

End Aggregates.

(** ** The calculated sensors *)

Section CalculatedClaims.

Import CalculatedSensors.

(** C10.  The efficiency sensor returns [None] when the coordinator has no
    data and when the charging energy (0 when absent) is not strictly
    positive; only with a strictly positive charging energy does it divide,
    returning [(discharge / charge) * 100] rounded to 2 decimals: a number
    of at most 2 decimals, less than one hundredth away from that ratio, and
    the ratio itself when it has no more than 2 decimals.  It never raises a
    division by zero. *)
Theorem efficiency_division_guarded (keys : efficiency_definition) (c : coordinator) :
  let result := MarstekVenusEfficiencySensor.native_value keys c in
  (Coordinator.data c = None -> result = Py.Returned None) /\
  (forall d, Coordinator.data c = Some d ->
     Py.get_default d (charge keys) 0 <= 0 -> result = Py.Returned None) /\
  (forall d, Coordinator.data c = Some d ->
     0 < Py.get_default d (charge keys) 0 ->
     let efficiency :=
       Py.get_default d (discharge keys) 0 / Py.get_default d (charge keys) 0
       * Qc_of_Z 100 in
     exists v : Qc,
       result = Py.Returned (Some v) /\
       decimals 2 v /\
       within_unit 2 v efficiency /\
       (decimals 2 efficiency -> v = efficiency)) /\
  result <> Py.Raised Py.ZeroDivisionError.
Proof.
  intros result. subst result. unfold MarstekVenusEfficiencySensor.native_value.
  destruct (Coordinator.data c) as [d|].
  - destruct (decide (Py.get_default d (charge keys) 0 <= 0)) as [Hle|Hgt].
    + repeat split; try discriminate.
      intros d' [= <-] Hpos. exfalso. exact (Qclt_not_le _ _ Hpos Hle).
    + assert (Hne : Py.get_default d (charge keys) 0 <> 0).
      { intros H0. apply Hgt. rewrite H0. apply Qcle_refl. }
      unfold Py.truediv.
      destruct (decide (Py.get_default d (charge keys) 0 = 0)); [contradiction|].
      split; [discriminate|]. split; [|split; [|discriminate]].
      * intros d' [= <-] Hle. contradiction.
      * intros d' [= <-] _. eexists. split; [reflexivity|].
        split; [apply round_has_decimals|].
        split; [apply round_within_unit | apply round_decimals].
  - repeat split; discriminate.
Qed.

Lemma efficiency_division_guarded_witness :
  let keys := {| charge := "total_charging_energy"; discharge := "total_discharging_energy" |} in
  let d : gmap string Qc := {[ "total_charging_energy" := Qc_of_Z 10;
                                "total_discharging_energy" := Qc_of_Z 9 ]} in
  0 < Py.get_default d (charge keys) 0 /\
  MarstekVenusEfficiencySensor.native_value keys (battery "a" (Some d))
    = Py.Returned (Some (Qc_of_Z 90)) /\
  MarstekVenusEfficiencySensor.native_value keys (battery "b" None) = Py.Returned None /\
  MarstekVenusEfficiencySensor.native_value keys
    (battery "c" (Some {[ "total_discharging_energy" := Qc_of_Z 9 ]})) = Py.Returned None.
Proof.
  intros keys d.
  assert (Hpos : 0 < Py.get_default d (charge keys) 0) by (vm_compute; reflexivity).
  split; [exact Hpos|]. split; [|split].
  - destruct (efficiency_division_guarded keys (battery "a" (Some d))) as (_ & _ & H & _).
    destruct (H d eq_refl Hpos) as (v & Hv & _ & _ & Hexact).
    rewrite Hv. apply (f_equal (fun q : Qc => Py.Returned (Some q))).
    rewrite Hexact.
    + apply Qc_is_canon. vm_compute. reflexivity.
    + exists 9000%Z. apply Qc_is_canon. vm_compute. reflexivity.
  - apply (efficiency_division_guarded keys (battery "b" None)). reflexivity.
  - destruct (efficiency_division_guarded keys
                (battery "c" (Some {[ "total_discharging_energy" := Qc_of_Z 9 ]})))
      as (_ & H & _).
    apply (H _ eq_refl). vm_compute. discriminate.
Defined.



End CalculatedClaims.

(** ** The binary sensors *)

Section HysteresisClaims.

Import BinarySensor.
Import ChargeHysteresisActiveSensor.

(** C6.  After a cold start the hysteresis state is inactive when there is no
    restored state, and the default is then left as it is; when there is a
    restored state, the state of the coordinator becomes active exactly if the
    persisted state reads "on", whatever it was before, and nothing else of
    the coordinator changes. *)
Theorem restored_state_is_authoritative (last_state : option State) (c : coordinator) :
  is_on (startup last_state c) =
    match last_state with
    | None => false
    | Some s => bool_decide (state s = "on")
    end /\
  async_added_to_hass None c = c /\
  (forall s,
     is_on (async_added_to_hass (Some s) c) = bool_decide (state s = "on") /\
     Coordinator.data (async_added_to_hass (Some s) c) = Coordinator.data c /\
     Coordinator.max_soc (async_added_to_hass (Some s) c) = Coordinator.max_soc c /\
     Coordinator.charge_hysteresis_percent (async_added_to_hass (Some s) c)
       = Coordinator.charge_hysteresis_percent c).
Proof.
  split; [|split].
  - destruct last_state; reflexivity.
  - reflexivity.
  - intros s. repeat split.
Qed.

End HysteresisClaims.

Section Attributes.

Import BinarySensor.
Import PredictiveChargingStatusSensor.

Lemma attributes_show_decision (controller : Controller) (r : DecisionRecord) :
  _last_decision_data controller = Some r -> displays controller r.
Proof.
  intros H. unfold displays, extra_state_attributes. rewrite H. cbv zeta.
  destruct (charging_time_slot controller), (solar_forecast_sensor controller),
    (_daily_consumption_history controller); repeat split; reflexivity.
Qed.

End Attributes.

(** ** The predictive charging decision *)

Section PredictiveClaims.

Import PredictiveCharge.
Import BinarySensor.PredictiveChargingStatusSensor.

Context {Time Window : Type}.
Variable falls_within : Time -> Window -> bool.
Variable cutoff_of : Qc -> Qc -> Qc.

Lemma computed_decision_insufficient (cfg : Config Window) (in_slot : bool)
    (aggregate_state : Aggregator.SystemAggregateState) (avg solar : option Qc) :
  avg = None \/ Aggregator.total_energy_capacity aggregate_state = None ->
  fst (computed_decision cutoff_of cfg in_slot aggregate_state avg solar) = false /\
  BinarySensor.reason
    (snd (computed_decision cutoff_of cfg in_slot aggregate_state avg solar))
    = "insufficient data".
Proof.
  unfold computed_decision. intros [-> | ->].
  - split; reflexivity.
  - destruct avg; split; reflexivity.
Qed.

(** C1.  On every evaluation tick the decision record is the one the unforced
    computation gives, override or not, and it holds the stored energy of
    the aggregate.  Without an override grid charging is active exactly when
    the tick is in a charging slot, the stored energy of the aggregate is
    below the cutoff and the deficit is positive; with an override it is the
    forced value verbatim.  When the tick has all its inputs and the
    capacity is positive, the reserve, the usable and available energy, the
    deficit and the cutoff of the record are the ones steps 2 to 5 compute
    from them.  The status sensor displays that record. *)
Theorem override_wins_else_computed (cfg : Config Window) (now : Time)
    (aggregate_state : Aggregator.SystemAggregateState) (solar_forecast : option Qc)
    (override : option bool) (controller : BinarySensor.Controller) :
  let after :=
    evaluation_tick falls_within cutoff_of cfg now aggregate_state
      solar_forecast override controller in
  let unforced :=
    evaluation_tick falls_within cutoff_of cfg now aggregate_state
      solar_forecast None controller in
  let in_slot := is_in_charging_slot falls_within cfg now in
  let stored := Aggregator.total_stored_energy aggregate_state in
  exists r : BinarySensor.DecisionRecord,
    BinarySensor._last_decision_data after = Some r /\
    BinarySensor._last_decision_data unforced = Some r /\
    displays after r /\
    BinarySensor.in_predictive_charging_slot after = in_slot /\
    BinarySensor.stored_energy_kwh r = stored /\
    is_on unforced =
      in_slot
      && opt_ltb stored (BinarySensor.cutoff_energy_kwh r)
      && opt_ltb (Some 0) (BinarySensor.energy_deficit_kwh r) /\
    (override = None ->
       after = unforced /\ BinarySensor.predictive_charging_overridden after = false) /\
    (forall forced : bool, override = Some forced ->
       is_on after = forced /\ BinarySensor.predictive_charging_overridden after = true) /\
    (forall avg_consumption capacity stored_kwh : Qc,
       average_consumption (BinarySensor._daily_consumption_history controller)
         = Some avg_consumption ->
       Aggregator.total_energy_capacity aggregate_state = Some capacity ->
       0 < capacity ->
       stored = Some stored_kwh ->
       let min_reserve :=
         effective_min_soc_of (reserve cfg) capacity / Qc_of_Z 100 * capacity in
       let usable := clamp0 (stored_kwh - min_reserve) in
       let available := usable + default 0 solar_forecast in
       let deficit := clamp0 (avg_consumption - available) in
       let cutoff := cutoff_of min_reserve deficit in
       BinarySensor.min_reserve_kwh r = Some min_reserve /\
       BinarySensor.usable_energy_kwh r = Some usable /\
       BinarySensor.total_available_kwh r = Some available /\
       BinarySensor.energy_deficit_kwh r = Some deficit /\
       BinarySensor.cutoff_energy_kwh r = Some cutoff /\
       is_on unforced = in_slot && ltb stored_kwh cutoff && ltb 0 deficit).
Proof.
  intros after unforced in_slot stored. subst after unforced in_slot stored.
  unfold evaluation_tick, evaluate_predictive_charging, is_on, computed_decision.
  destruct (average_consumption (BinarySensor._daily_consumption_history controller))
    as [a|];
    destruct (Aggregator.total_energy_capacity aggregate_state) as [cap|];
    destruct (Aggregator.total_stored_energy aggregate_state) as [s|];
    cbn -[ltb clamp0 effective_min_soc_of default];
    (eexists; split; [reflexivity|]; split; [reflexivity|];
     split; [apply attributes_show_decision; reflexivity|];
     split; [reflexivity|]; split; [reflexivity|];
     split; [rewrite ?andb_false_r; reflexivity|];
     split; [intros ->; split; reflexivity|];
     split; [intros forced ->; split; reflexivity|];
     intros avg capacity stored_kwh Havg Hcap _ Hstored;
     try discriminate Havg; try discriminate Hcap; try discriminate Hstored).
  injection Havg as <-. injection Hcap as <-. injection Hstored as <-.
  cbv zeta. repeat split; reflexivity.
Qed.

End PredictiveClaims.

Section PredictiveExamples.

Import PredictiveCharge.
Import BinarySensor.PredictiveChargingStatusSensor.

(** At 02:00, in the night window, a system of 5 kWh holding 2.5 kWh with a
    reserve of 40 percent (2 kWh) and an average consumption of 4 kWh: 0.5
    kWh are usable, the deficit is 3.5 kWh, the cutoff 5.5 kWh, and grid
    charging is active.  An override that forces it off wins, and the record
    is the same. *)
Lemma override_wins_else_computed_witness :
  let forced_off :=
    evaluation_tick minutes_within reserve_plus_deficit night_config
      120%nat half_full None (Some false) one_day_controller in
  let unforced :=
    evaluation_tick minutes_within reserve_plus_deficit night_config
      120%nat half_full None None one_day_controller in
  is_on unforced = true /\
  is_on forced_off = false /\
  BinarySensor._last_decision_data forced_off = BinarySensor._last_decision_data unforced /\
  exists r : BinarySensor.DecisionRecord,
    BinarySensor._last_decision_data forced_off = Some r /\
    BinarySensor.energy_deficit_kwh r = Some (Qc_of_Z 7 / Qc_of_Z 2) /\
    BinarySensor.cutoff_energy_kwh r = Some (Qc_of_Z 11 / Qc_of_Z 2).
Proof.
  intros forced_off unforced.
  destruct (override_wins_else_computed minutes_within reserve_plus_deficit night_config
              120%nat half_full None (Some false) one_day_controller)
    as (r & Hafter & Hunforced & _ & _ & _ & _ & _ & Hforced & Hsteps).
  fold forced_off in Hafter, Hforced. fold unforced in Hunforced, Hsteps.
  destruct (Hsteps (Qc_of_Z 4) (Qc_of_Z 5) (Qc_of_Z 5 / Qc_of_Z 2))
    as (_ & _ & _ & Hdeficit & Hcutoff & Hon).
  { apply (f_equal Some). apply Qc_is_canon. vm_compute. reflexivity. }
  { reflexivity. }
  { vm_compute. reflexivity. }
  { reflexivity. }
  split; [|split; [|split]].
  - rewrite Hon. vm_compute. reflexivity.
  - apply (Hforced false eq_refl).
  - rewrite Hafter, Hunforced. reflexivity.
  - exists r. split; [exact Hafter|]. split.
    + rewrite Hdeficit. apply (f_equal Some). apply Qc_is_canon. vm_compute. reflexivity.
    + rewrite Hcutoff. apply (f_equal Some). apply Qc_is_canon. vm_compute. reflexivity.
Defined.

End PredictiveExamples.

(** ** More on the aggregate sensors *)

Section AggregateExtras.

Import AggregateSensors.

Lemma sum_key_value (k : string) (self : MarstekVenusAggregateSensor) (w : World) :
  sum_key k self w =
    (Py.Returned
       match readings k (coordinators w) with
       | [] => None
       | xs => Some (Py.round (total xs) (get_precision self 2))
       end, w).
Proof.
  unfold sum_key, bind, read_coordinators. cbv beta iota.
  rewrite sum_key_loop.
  destruct (readings k (coordinators w)); reflexivity.
Qed.

Lemma plain_sums_value (sensor_key data_key : string)
    (self : MarstekVenusAggregateSensor) (w : World) :
  (sensor_key, data_key) ∈
    [("system_total_energy", "battery_total_energy");
     ("system_daily_charging_energy", "total_daily_charging_energy");
     ("system_daily_discharging_energy", "total_daily_discharging_energy")] ->
  sensor_for sensor_key = Some self ->
  native_value self w =
    (Py.Returned match readings data_key (coordinators w) with
                 | [] => None
                 | xs => Some (Py.round (total xs) 2)
                 end, w).
Proof.
  intros Hin Hs.
  apply list_elem_of_In in Hin. simpl in Hin.
  destruct Hin as [E|[E|[E|[]]]]; injection E as <- <-; table_sensor Hs.
  - change (native_value ?s) with (sum_key "battery_total_energy" s).
    rewrite sum_key_value. reflexivity.
  - change (native_value ?s) with (sum_key "total_daily_charging_energy" s).
    rewrite sum_key_value. reflexivity.
  - change (native_value ?s) with (sum_key "total_daily_discharging_energy" s).
    rewrite sum_key_value. reflexivity.
Qed.



(** X2.  No aggregate sensor ever divides by zero, whatever its definition
    and whatever readings the coordinators hold: the one division, of the
    SOC average, is reached only with at least one SOC value, so reading a
    sensor never raises [ZeroDivisionError]. *)
Theorem aggregate_sensor_never_raises (self : MarstekVenusAggregateSensor) (w : World) :
  fst (native_value self w) <> Py.Raised Py.ZeroDivisionError.
Proof.
  destruct (returns_native_value self w) as [v Hv]. rewrite Hv. discriminate.
Qed.

Lemma discharge_power_names (cs : list coordinator) :
  forall t h bp,
    snd (foldl discharge_power_step (t, h, bp) cs) = bp ++ reported_powers cs.
Proof.
  induction cs as [|c cs IH]; intros t h bp; simpl.
  - rewrite app_nil_r. reflexivity.
  - change (Coordinator.data c ≫= _) with (reading "battery_power" c).
    destruct (Py.truthy (Coordinator.data c)) eqn:Ht.
    + destruct (reading "battery_power" c) as [p|]; simpl; [|apply IH].
      destruct (decide (p < 0)); rewrite IH, <- app_assoc; reflexivity.
    + rewrite (reading_not_truthy _ _ Ht). apply IH.
Qed.

(** X3.  The discharge power sensor writes one debug record per evaluation
    when at least one battery reports a power reading, naming every such
    battery with its reading (charging ones too) and the total before
    rounding, and writes nothing otherwise.  It never changes the
    coordinators, and every sensor with another key leaves the whole world,
    log included, as it was. *)
Theorem discharge_debug_record (self : MarstekVenusAggregateSensor) (w : World) :
  let after := snd (native_value self w) in
  let negative := filter (fun p => p < 0) (readings "battery_power" (coordinators w)) in
  (sensor_for "system_discharge_power" = Some self ->
     coordinators after = coordinators w /\
     debug_log after =
       debug_log w ++
       match reported_powers (coordinators w) with
       | [] => []
       | reported => [DischargeDebug reported (total (Py.abs <$> negative))]
       end) /\
  (key (sensor_definition self) <> "system_discharge_power" -> after = w).
Proof.
  intros after negative. subst after. split.
  - intros Hs. table_sensor Hs.
    table_method _calculate_total_discharge_power.
    pose proof (discharge_power_total (coordinators w)) as Htot.
    pose proof (discharge_power_names (coordinators w) 0 false []) as Hnames.
    destruct (foldl discharge_power_step _ _) as [[t h] bp].
    simpl in Htot, Hnames. injection Htot as -> ->. subst bp.
    fold negative.
    destruct (reported_powers (coordinators w)) as [|r rs].
    + destruct (bool_decide _); simpl; rewrite app_nil_r; split; reflexivity.
    + destruct (bool_decide _); simpl; split; reflexivity.
  - intros Hk. unfold native_value.
    repeat match goal with
           | |- context [if decide ?P then _ else _] => destruct (decide P)
           end; try contradiction.
    + unfold _calculate_average_soc, bind, read_coordinators. cbv beta iota.
      destruct (foldl average_soc_step [] (coordinators w)) as [|s ss]; [reflexivity|].
      unfold lift. destruct (Py.truediv _ _); reflexivity.
    + unfold _calculate_total_charge_power, bind, read_coordinators. cbv beta iota.
      destruct (foldl _ _ _) as [t []]; reflexivity.
    + unfold _calculate_total_energy. rewrite sum_key_value. reflexivity.
    + unfold _calculate_total_stored_energy, bind, read_coordinators. cbv beta iota.
      destruct (foldl _ _ _) as [t []]; reflexivity.
    + unfold _calculate_daily_charging_energy. rewrite sum_key_value. reflexivity.
    + unfold _calculate_daily_discharging_energy. rewrite sum_key_value. reflexivity.
    + reflexivity.
Qed.

Lemma discharge_debug_record_witness :
  exists self,
    sensor_for "system_discharge_power" = Some self /\
    debug_log (snd (native_value self
      (world_of [battery "a" (Some {[ "battery_power" := Qc_of_Z 300 ]});
                 battery "b" None;
                 battery "c" (Some {[ "battery_power" := - Qc_of_Z 200 ]})])))
    = [DischargeDebug [("a", Qc_of_Z 300); ("c", - Qc_of_Z 200)]
         (total [Py.abs (- Qc_of_Z 200)])].
Proof.
  eexists. split; [reflexivity|].
  match goal with
  | |- debug_log (snd (native_value ?s ?w)) = _ =>
      destruct (discharge_debug_record s w) as (Hlog & _);
      destruct (Hlog eq_refl) as (_ & Hrec)
  end.
  rewrite Hrec. reflexivity.
Defined.

(** X4.  When every power reading is a whole number of watts, the charge
    power minus the discharge power is the net power of the system: the sum
    of all the readings. *)
Theorem net_power_of_whole_readings (charge discharge : MarstekVenusAggregateSensor)
    (w : World) :
  sensor_for "system_charge_power" = Some charge ->
  sensor_for "system_discharge_power" = Some discharge ->
  Forall whole (readings "battery_power" (coordinators w)) ->
  exists c d : Qc,
    fst (native_value charge w) = Py.Returned (Some c) /\
    fst (native_value discharge w) = Py.Returned (Some d) /\
    c - d = total (readings "battery_power" (coordinators w)).
Proof.
  intros Hc Hd Hwhole.
  rewrite (charge_power_value charge w Hc), (discharge_power_value discharge w Hd).
  eexists _, _. split; [reflexivity|]. split; [reflexivity|].
  rewrite !round_whole_total.
  - apply total_net.
  - apply Forall_forall. intros p Hp.
    apply list_elem_of_fmap in Hp. destruct Hp as (q & -> & Hq). apply whole_abs.
    apply list_elem_of_filter in Hq. destruct Hq as [_ Hq].
    rewrite Forall_forall in Hwhole. apply Hwhole, Hq.
  - apply Forall_forall. intros p Hp.
    apply list_elem_of_filter in Hp. destruct Hp as [_ Hp].
    rewrite Forall_forall in Hwhole. apply Hwhole, Hp.
Qed.

Lemma net_power_of_whole_readings_witness :
  exists charge discharge c d,
    sensor_for "system_charge_power" = Some charge /\
    sensor_for "system_discharge_power" = Some discharge /\
    let w := world_of [battery "a" (Some {[ "battery_power" := Qc_of_Z 300 ]});
                       battery "b" (Some {[ "battery_power" := - Qc_of_Z 200 ]})] in
    fst (native_value charge w) = Py.Returned (Some c) /\
    fst (native_value discharge w) = Py.Returned (Some d) /\
    c - d = Qc_of_Z 100.
Proof.
  pose (w := world_of [battery "a" (Some {[ "battery_power" := Qc_of_Z 300 ]});
                       battery "b" (Some {[ "battery_power" := - Qc_of_Z 200 ]})]).
  assert (Hwhole : Forall whole (readings "battery_power" (coordinators w))).
  { repeat constructor.
    - exists 300%Z. reflexivity.
    - exists (-200)%Z. apply Qc_is_canon. reflexivity. }
  destruct (net_power_of_whole_readings
              {| sensor_definition := _ |} {| sensor_definition := _ |} w
              eq_refl eq_refl Hwhole) as (c & d & Hc & Hd & Hnet).
  eexists _, _, c, d. split; [reflexivity|]. split; [reflexivity|].
  split; [exact Hc|]. split; [exact Hd|].
  rewrite Hnet. apply Qc_is_canon. vm_compute. reflexivity.
Defined.

(** X5.  The system SOC stays within any whole-number bounds that hold for
    every SOC reading: readings between 0 and 100 give a system SOC between 0
    and 100. *)
Theorem average_soc_within_bounds (self : MarstekVenusAggregateSensor) (w : World)
    (lo hi : Z) (v : Qc) :
  sensor_for "system_soc" = Some self ->
  Forall (fun soc => Qc_of_Z lo <= soc /\ soc <= Qc_of_Z hi)
    (readings "battery_soc" (coordinators w)) ->
  fst (native_value self w) = Py.Returned (Some v) ->
  Qc_of_Z lo <= v /\ v <= Qc_of_Z hi.
Proof.
  intros Hs Hall. rewrite (average_soc_value self w Hs). simpl fst.
  destruct (readings "battery_soc" (coordinators w)) as [|soc socs] eqn:E;
    [discriminate|].
  intros [= <-].
  destruct (mean_bounds (Qc_of_Z lo) (Qc_of_Z hi) (soc :: socs)) as [Hlo Hhi];
    [discriminate | exact Hall |].
  split.
  - rewrite <- (round_whole lo). apply round_mono, Hlo.
  - rewrite <- (round_whole hi). apply round_mono, Hhi.
Qed.

Lemma average_soc_within_bounds_witness :
  exists self v,
    sensor_for "system_soc" = Some self /\
    fst (native_value self
           (world_of [battery "a" (Some {[ "battery_soc" := Qc_of_Z 37 ]});
                      battery "b" (Some {[ "battery_soc" := Qc_of_Z 100 ]})]))
    = Py.Returned (Some v) /\
    Qc_of_Z 0 <= v /\ v <= Qc_of_Z 100.
Proof.
  eexists _, _. split; [reflexivity|].
  match goal with
  | |- fst (native_value ?s ?w) = _ /\ _ =>
      assert (Hv : fst (native_value s w) = Py.Returned (Some (Qc_of_Z 68)))
  end.
  { rewrite average_soc_value by reflexivity. simpl fst.
    do 2 f_equal. apply Qc_is_canon. vm_compute. reflexivity. }
  split; [exact Hv|].
  match goal with
  | H : fst (native_value ?s ?w) = _ |- _ =>
      apply (average_soc_within_bounds s w 0 100 _ eq_refl); [|exact H]
  end.
  repeat constructor; vm_compute; discriminate.
Defined.

Lemma readings_no_snapshot (k : string) (cs : list coordinator) :
  Forall (fun c => Py.truthy (Coordinator.data c) = false) cs -> readings k cs = [].
Proof.
  induction 1 as [|c cs Hc _ IH]; [reflexivity|].
  simpl. rewrite (reading_not_truthy k c Hc). exact IH.
Qed.

Lemma stored_no_snapshot (cs : list coordinator) :
  Forall (fun c => Py.truthy (Coordinator.data c) = false) cs ->
  omap stored_energy_of cs = [].
Proof.
  induction 1 as [|c cs Hc _ IH]; [reflexivity|].
  simpl. unfold stored_energy_of at 1. rewrite (reading_not_truthy _ c Hc). exact IH.
Qed.

Lemma discharge_step_no_snapshot (st : Qc * bool * list (string * Qc)) (c : coordinator) :
  Py.truthy (Coordinator.data c) = false -> discharge_power_step st c = st.
Proof.
  intros Ht. destruct st as [[t h] bp]. unfold discharge_power_step. rewrite Ht.
  reflexivity.
Qed.

Lemma foldl_no_snapshot {A : Type} (f : A -> coordinator -> A) (cs : list coordinator) (a : A) :
  Forall (fun c => Py.truthy (Coordinator.data c) = false) cs ->
  (forall a c, Py.truthy (Coordinator.data c) = false -> f a c = a) ->
  foldl f a cs = a.
Proof.
  intros Hall Hf. revert a. induction Hall as [|c cs Hc _ IH]; intros a; [reflexivity|].
  simpl. rewrite (Hf a c Hc). apply IH.
Qed.

Ltac table_value_of E :=
  unfold Aggregator.native_value_of;
  match goal with
  | |- context [sensor_for ?k] =>
      destruct (sensor_for k) eqn:E; [|vm_compute in E; discriminate E]
  end.

Lemma no_snapshot_values (w : World) :
  Forall (fun c => Py.truthy (Coordinator.data c) = false) (coordinators w) ->
  Aggregator.native_value_of "system_soc" w = (Py.Returned None, w) /\
  Aggregator.native_value_of "system_charge_power" w = (Py.Returned (Some 0), w) /\
  Aggregator.native_value_of "system_discharge_power" w = (Py.Returned (Some 0), w) /\
  Aggregator.native_value_of "system_total_energy" w = (Py.Returned None, w) /\
  Aggregator.native_value_of "system_stored_energy" w = (Py.Returned None, w) /\
  Aggregator.native_value_of "system_daily_charging_energy" w = (Py.Returned None, w) /\
  Aggregator.native_value_of "system_daily_discharging_energy" w = (Py.Returned None, w).
Proof.
  intros Hnone.
  assert (Hr : forall k, readings k (coordinators w) = [])
    by (intros k; apply readings_no_snapshot, Hnone).
  repeat split; table_value_of E.
  - rewrite (average_soc_value _ w E), Hr. reflexivity.
  - rewrite (charge_power_value _ w E), Hr. simpl. rewrite round_0. reflexivity.
  - table_sensor E. table_method _calculate_total_discharge_power.
    rewrite (foldl_no_snapshot _ _ _ Hnone); [reflexivity|].
    apply discharge_step_no_snapshot.
  - rewrite (plain_sums_value "system_total_energy" "battery_total_energy" _ w
               ltac:(set_solver) E), Hr.
    reflexivity.
  - rewrite (stored_energy_value _ w E), (stored_no_snapshot _ Hnone). reflexivity.
  - rewrite (plain_sums_value "system_daily_charging_energy"
               "total_daily_charging_energy" _ w ltac:(set_solver) E), Hr.
    reflexivity.
  - rewrite (plain_sums_value "system_daily_discharging_energy"
               "total_daily_discharging_energy" _ w ltac:(set_solver) E), Hr.
    reflexivity.
Qed.

(** X6.  When no coordinator holds a snapshot with at least one entry, the
    whole aggregate is "nothing known": every value is [None] except the two
    power totals, which are 0, and the evaluation leaves the world as it was,
    writing no debug record.  An unavailable entity is such a case; an
    available one can be too, since availability counts an empty snapshot as
    data and the sums do not. *)
Theorem no_snapshot_means_nothing_known (self : MarstekVenusAggregateSensor) (w : World) :
  (Forall (fun c => Py.truthy (Coordinator.data c) = false) (coordinators w) ->
     Aggregator.aggregate w = (Py.Returned nothing_known, w)) /\
  (fst (available self w) = Py.Returned false ->
     Forall (fun c => Py.truthy (Coordinator.data c) = false) (coordinators w)).
Proof.
  split.
  - intros Hnone.
    destruct (no_snapshot_values w Hnone) as (H1 & H2 & H3 & H4 & H5 & H6 & H7).
    unfold Aggregator.aggregate, bind.
    rewrite H1, H2, H3, H4, H5, H6, H7. reflexivity.
  - unfold available, bind, read_coordinators, ret. simpl. intros [= Hnone].
    induction (coordinators w) as [|c cs IH]; [constructor|].
    simpl in Hnone. apply orb_false_iff in Hnone. destruct Hnone as [Hc Hcs].
    apply bool_decide_eq_false in Hc. constructor; [|apply IH, Hcs].
    destruct (Coordinator.data c); [exfalso; apply Hc; discriminate | reflexivity].
Qed.

Lemma no_snapshot_means_nothing_known_witness :
  exists self,
    sensor_for "system_soc" = Some self /\
    let w := world_of [battery "a" None; battery "b" (Some ∅)] in
    fst (available self w) = Py.Returned true /\
    Aggregator.aggregate w = (Py.Returned nothing_known, w).
Proof.
  eexists. split; [reflexivity|]. intros w.
  match goal with
  | |- fst (available ?s _) = _ /\ _ =>
      destruct (no_snapshot_means_nothing_known s w) as (Hnothing & _)
  end.
  split; [reflexivity|]. apply Hnothing. repeat constructor.
Defined.

Lemma foldl_skip {A : Type} (f : A -> coordinator -> A) (cs1 cs2 : list coordinator)
    (c : coordinator) (a : A) :
  (forall a, f a c = a) ->
  foldl f a (cs1 ++ c :: cs2) = foldl f a (cs1 ++ cs2).
Proof.
  intros Hc. rewrite !foldl_app. simpl. rewrite Hc. reflexivity.
Qed.

(** X17.  A battery without a snapshot, or with an empty one, has no
    influence on any aggregate sensor: taking it out of the list of
    coordinators changes neither the value returned nor the debug log
    written. *)
Theorem offline_battery_is_ignored (self : MarstekVenusAggregateSensor)
    (cs1 cs2 : list coordinator) (c : coordinator) (log : list log_record) :
  Py.truthy (Coordinator.data c) = false ->
  let with_it := native_value self {| coordinators := cs1 ++ c :: cs2; debug_log := log |} in
  let without := native_value self {| coordinators := cs1 ++ cs2; debug_log := log |} in
  fst with_it = fst without /\ debug_log (snd with_it) = debug_log (snd without).
Proof.
  intros Ht with_it without. subst with_it without. unfold native_value.
  assert (Hsum : forall k,
            sum_key k self {| coordinators := cs1 ++ c :: cs2; debug_log := log |}
              = (fst (sum_key k self {| coordinators := cs1 ++ cs2; debug_log := log |}),
                 {| coordinators := cs1 ++ c :: cs2; debug_log := log |})).
  { intros k. rewrite !sum_key_value. cbn [coordinators]. simpl fst.
    unfold readings. rewrite !omap_app. simpl.
    rewrite (reading_not_truthy k c Ht). reflexivity. }
  repeat match goal with
         | |- context [if decide ?P then _ else _] => destruct (decide P)
         end.
  - unfold _calculate_average_soc, bind, read_coordinators. cbv beta iota.
    cbn [coordinators]. rewrite foldl_skip.
    + destruct (foldl average_soc_step [] (cs1 ++ cs2)) as [|s ss]; [split; reflexivity|].
      unfold lift. destruct (Py.truediv _ _); split; reflexivity.
    + intros a. unfold average_soc_step. rewrite Ht. reflexivity.
  - unfold _calculate_total_charge_power, bind, read_coordinators. cbv beta iota.
    cbn [coordinators]. rewrite foldl_skip.
    + destruct (foldl _ _ _) as [t []]; split; reflexivity.
    + intros [t h]. unfold charge_power_step. rewrite Ht. reflexivity.
  - unfold _calculate_total_discharge_power, bind, read_coordinators. cbv beta iota.
    cbn [coordinators]. rewrite foldl_skip.
    + destruct (foldl _ _ _) as [[t h] bp]. destruct bp, h; split; reflexivity.
    + intros a. apply discharge_step_no_snapshot, Ht.
  - unfold _calculate_total_energy. rewrite Hsum. rewrite sum_key_value. split; reflexivity.
  - unfold _calculate_total_stored_energy, bind, read_coordinators. cbv beta iota.
    cbn [coordinators]. rewrite foldl_skip.
    + destruct (foldl _ _ _) as [t []]; split; reflexivity.
    + intros [t h]. unfold stored_energy_step. rewrite Ht. reflexivity.
  - unfold _calculate_daily_charging_energy. rewrite Hsum. rewrite sum_key_value.
    split; reflexivity.
  - unfold _calculate_daily_discharging_energy. rewrite Hsum. rewrite sum_key_value.
    split; reflexivity.
  - split; reflexivity.
Qed.

Lemma offline_battery_is_ignored_witness :
  exists self,
    sensor_for "system_soc" = Some self /\
    Py.truthy (Coordinator.data (battery "b" (Some ∅))) = false /\
    fst (native_value self
           (world_of ([battery "a" (Some {[ "battery_soc" := Qc_of_Z 40 ]})]
                      ++ battery "b" (Some ∅) :: [])))
    = fst (native_value self
             (world_of ([battery "a" (Some {[ "battery_soc" := Qc_of_Z 40 ]})] ++ []))).
Proof.
  assert (Ht : Py.truthy (Coordinator.data (battery "b" (Some ∅))) = false)
    by reflexivity.
  eexists. split; [reflexivity|]. split; [exact Ht|].
  match goal with
  | |- fst (native_value ?s _) = _ =>
      apply (offline_battery_is_ignored s
               [battery "a" (Some {[ "battery_soc" := Qc_of_Z 40 ]})] []
               (battery "b" (Some ∅)) [] Ht)
  end.
Defined.

(** X7.  A known system stored energy implies a known system SOC and a
    known system total energy: the stored energy comes only from batteries
    that report both fields. *)
Theorem stored_energy_needs_soc_and_capacity
    (stored soc capacity : MarstekVenusAggregateSensor) (w : World) (v : Qc) :
  sensor_for "system_stored_energy" = Some stored ->
  sensor_for "system_soc" = Some soc ->
  sensor_for "system_total_energy" = Some capacity ->
  fst (native_value stored w) = Py.Returned (Some v) ->
  fst (native_value soc w) <> Py.Returned None /\
  fst (native_value capacity w) <> Py.Returned None.
Proof.
  intros Hst Hsoc Hcap.
  rewrite (stored_energy_value stored w Hst), (average_soc_value soc w Hsoc).
  rewrite (plain_sums_value "system_total_energy" "battery_total_energy"
             capacity w ltac:(set_solver) Hcap).
  simpl fst.
  induction (coordinators w) as [|c cs IH]; [discriminate|].
  simpl readings. simpl omap. unfold stored_energy_of at 1.
  fold (readings "battery_soc" cs). fold (readings "battery_total_energy" cs).
  destruct (reading "battery_soc" c), (reading "battery_total_energy" c);
    intros H.
  - split; discriminate.
  - destruct (IH H) as [H1 H2]. split; [discriminate | exact H2].
  - destruct (IH H) as [H1 H2]. split; [exact H1 | discriminate].
  - exact (IH H).
Qed.

Lemma stored_energy_needs_soc_and_capacity_witness :
  exists stored soc capacity v,
    sensor_for "system_stored_energy" = Some stored /\
    sensor_for "system_soc" = Some soc /\
    sensor_for "system_total_energy" = Some capacity /\
    let w := world_of [battery "a" (Some {[ "battery_soc" := Qc_of_Z 50;
                                             "battery_total_energy" := Qc_of_Z 5 ]});
                       battery "b" None] in
    fst (native_value stored w) = Py.Returned (Some v) /\
    fst (native_value soc w) <> Py.Returned None /\
    fst (native_value capacity w) <> Py.Returned None.
Proof.
  eexists _, _, _, _. split; [reflexivity|]. split; [reflexivity|].
  split; [reflexivity|]. intros w.
  match goal with
  | |- fst (native_value ?s w) = _ /\ _ =>
      assert (Hv : fst (native_value s w) = Py.Returned (Some (Qc_of_Z 5 / Qc_of_Z 2)))
  end.
  { rewrite stored_energy_value by reflexivity. simpl fst.
    do 2 f_equal. apply Qc_is_canon. vm_compute. reflexivity. }
  split; [exact Hv|].
  exact (stored_energy_needs_soc_and_capacity _ _ _ w _ eq_refl eq_refl eq_refl Hv).
Defined.

End AggregateExtras.

(** ** More on the calculated sensors *)

Section CalculatedExtras.

Import CalculatedSensors.

Lemma efficiency_value (keys : efficiency_definition) (c : coordinator)
    (d : gmap string Qc) :
  Coordinator.data c = Some d ->
  0 < Py.get_default d (charge keys) 0 ->
  MarstekVenusEfficiencySensor.native_value keys c =
    Py.Returned (Some (Py.round
      (Py.get_default d (discharge keys) 0 / Py.get_default d (charge keys) 0
       * Qc_of_Z 100) 2)) /\
  Py.get_default d (charge keys) 0 <> 0.
Proof.
  intros Hd Hpos. unfold MarstekVenusEfficiencySensor.native_value. rewrite Hd.
  assert (Hne : Py.get_default d (charge keys) 0 <> 0).
  { intros H0. rewrite H0 in Hpos. exact (Qclt_not_eq _ _ Hpos eq_refl). }
  destruct (decide (Py.get_default d (charge keys) 0 <= 0)) as [Hle|_].
  - exfalso. exact (Qclt_not_le _ _ Hpos Hle).
  - unfold Py.truediv.
    destruct (decide (Py.get_default d (charge keys) 0 = 0)); [contradiction|].
    split; [reflexivity | exact Hne].
Qed.

(** X8.  With a strictly positive charging energy the efficiency sensor
    reports a number: 0 when the discharging energy is absent, and a value
    between 0 and 100 whenever the discharging energy lies between 0 and the
    charging energy (100 when they are equal).  Nothing clamps it: a
    discharging energy above the charging energy gives at least 100. *)
Theorem efficiency_range (keys : efficiency_definition) (c : coordinator)
    (d : gmap string Qc) :
  Coordinator.data c = Some d ->
  0 < Py.get_default d (charge keys) 0 ->
  exists v : Qc,
    MarstekVenusEfficiencySensor.native_value keys c = Py.Returned (Some v) /\
    (d !! discharge keys = None -> v = 0) /\
    (0 <= Py.get_default d (discharge keys) 0 -> 0 <= v) /\
    (Py.get_default d (discharge keys) 0 <= Py.get_default d (charge keys) 0 ->
       v <= Qc_of_Z 100) /\
    (Py.get_default d (charge keys) 0 <= Py.get_default d (discharge keys) 0 ->
       Qc_of_Z 100 <= v).
Proof.
  intros Hd Hpos.
  destruct (efficiency_value keys c d Hd Hpos) as [Hv Hne]. rewrite Hv.
  set (ch := Py.get_default d (charge keys) 0) in *.
  set (dis := Py.get_default d (discharge keys) 0) in *.
  eexists. split; [reflexivity|].
  assert (Hinv : 0 <= / ch) by (apply Qcinv_nonneg, Hpos).
  assert (Hone : ch / ch = 1) by (unfold Qcdiv; apply Qcmult_inv_r, Hne).
  assert (H100 : 0 <= Qc_of_Z 100) by (apply Qc_of_Z_nonneg; lia).
  repeat split.
  - intros Habs. subst dis. unfold Py.get_default. rewrite Habs. simpl.
    unfold Qcdiv. rewrite !Qcmult_0_l. apply round_0.
  - intros Hdis. apply round_nonneg.
    rewrite <- (Qcmult_0_l (Qc_of_Z 100)). apply Qcmult_le_compat_r; [|exact H100].
    apply Qcdiv_nonneg; assumption.
  - intros Hle. apply Qcle_trans with (Py.round (1 * Qc_of_Z 100) 2).
    + apply round_mono, Qcmult_le_compat_r; [|exact H100].
      rewrite <- Hone. unfold Qcdiv. apply Qcmult_le_compat_r; assumption.
    + rewrite Qcmult_1_l, round_whole_any. apply Qcle_refl.
  - intros Hle. apply Qcle_trans with (Py.round (1 * Qc_of_Z 100) 2).
    + rewrite Qcmult_1_l, round_whole_any. apply Qcle_refl.
    + apply round_mono, Qcmult_le_compat_r; [|exact H100].
      rewrite <- Hone. unfold Qcdiv. apply Qcmult_le_compat_r; assumption.
Qed.

Lemma efficiency_range_witness :
  let keys := {| charge := "total_charging_energy"; discharge := "total_discharging_energy" |} in
  let d : gmap string Qc := {[ "total_charging_energy" := Qc_of_Z 8 ]} in
  0 < Py.get_default d (charge keys) 0 /\
  MarstekVenusEfficiencySensor.native_value keys (battery "a" (Some d))
    = Py.Returned (Some 0).
Proof.
  intros keys d.
  assert (Hpos : 0 < Py.get_default d (charge keys) 0) by (vm_compute; reflexivity).
  split; [exact Hpos|].
  destruct (efficiency_range keys (battery "a" (Some d)) d eq_refl Hpos)
    as (v & Hv & Habsent & _).
  rewrite Hv, (Habsent eq_refl). reflexivity.
Defined.

Lemma stored_energy_value_of_battery (keys : stored_energy_definition) (c : coordinator)
    (d : gmap string Qc) :
  Coordinator.data c = Some d ->
  0 < Py.get_default d (capacity keys) 0 ->
  MarstekVenusStoredEnergySensor.native_value keys c =
    Py.Returned (Some (Py.round
      (Py.get_default d (soc keys) 0 / Qc_of_Z 100 * Py.get_default d (capacity keys) 0) 3)).
Proof.
  intros Hd Hpos. unfold MarstekVenusStoredEnergySensor.native_value. rewrite Hd.
  destruct (decide (Py.get_default d (capacity keys) 0 <= 0)) as [Hle|_].
  - exfalso. exact (Qclt_not_le _ _ Hpos Hle).
  - reflexivity.
Qed.

(** X9.  For a battery with positive capacity and a SOC between 0 and 100
    (or absent), the stored energy sensor reports a value between 0 and the
    capacity rounded to 3 decimals, and exactly that rounded capacity at a
    SOC of 100. *)
Theorem stored_energy_range (keys : stored_energy_definition) (c : coordinator)
    (d : gmap string Qc) :
  Coordinator.data c = Some d ->
  0 < Py.get_default d (capacity keys) 0 ->
  0 <= Py.get_default d (soc keys) 0 ->
  Py.get_default d (soc keys) 0 <= Qc_of_Z 100 ->
  exists v : Qc,
    MarstekVenusStoredEnergySensor.native_value keys c = Py.Returned (Some v) /\
    0 <= v /\
    v <= Py.round (Py.get_default d (capacity keys) 0) 3 /\
    (Py.get_default d (soc keys) 0 = Qc_of_Z 100 ->
       v = Py.round (Py.get_default d (capacity keys) 0) 3).
Proof.
  intros Hd Hpos Hlo Hhi.
  rewrite (stored_energy_value_of_battery keys c d Hd Hpos).
  set (cap := Py.get_default d (capacity keys) 0) in *.
  set (s := Py.get_default d (soc keys) 0) in *.
  eexists. split; [reflexivity|].
  assert (H100 : 0 < Qc_of_Z 100) by (apply Qc_of_Z_pos; lia).
  assert (Hne : Qc_of_Z 100 <> 0).
  { intros H0. rewrite H0 in H100. exact (Qclt_not_eq _ _ H100 eq_refl). }
  assert (Hone : Qc_of_Z 100 / Qc_of_Z 100 = 1) by (unfold Qcdiv; apply Qcmult_inv_r, Hne).
  assert (Hcap : 0 <= cap) by (apply Qclt_le_weak, Hpos).
  repeat split.
  - apply round_nonneg. rewrite <- (Qcmult_0_l cap).
    apply Qcmult_le_compat_r; [|exact Hcap]. apply Qcdiv_nonneg; assumption.
  - apply round_mono. rewrite <- (Qcmult_1_l cap) at 2.
    apply Qcmult_le_compat_r; [|exact Hcap].
    rewrite <- Hone. unfold Qcdiv. apply Qcmult_le_compat_r; [exact Hhi|].
    apply Qcinv_nonneg, H100.
  - intros ->. rewrite Hone, Qcmult_1_l. reflexivity.
Qed.

Lemma stored_energy_range_witness :
  let keys := {| soc := "battery_soc"; capacity := "battery_total_energy" |} in
  let d : gmap string Qc := {[ "battery_soc" := Qc_of_Z 100;
                                "battery_total_energy" := Qc_of_Z 5 ]} in
  0 < Py.get_default d (capacity keys) 0 /\
  0 <= Py.get_default d (soc keys) 0 /\
  Py.get_default d (soc keys) 0 <= Qc_of_Z 100 /\
  MarstekVenusStoredEnergySensor.native_value keys (battery "a" (Some d))
    = Py.Returned (Some (Qc_of_Z 5)).
Proof.
  intros keys d.
  assert (Hpos : 0 < Py.get_default d (capacity keys) 0) by (vm_compute; reflexivity).
  assert (Hlo : 0 <= Py.get_default d (soc keys) 0) by (vm_compute; discriminate).
  assert (Hhi : Py.get_default d (soc keys) 0 <= Qc_of_Z 100) by (vm_compute; discriminate).
  split; [exact Hpos|]. split; [exact Hlo|]. split; [exact Hhi|].
  destruct (stored_energy_range keys (battery "a" (Some d)) d eq_refl Hpos Hlo Hhi)
    as (v & Hv & _ & _ & Hfull).
  rewrite Hv, (Hfull eq_refl).
  change (Py.get_default d (capacity keys) 0) with (Qc_of_Z 5).
  rewrite round_whole_any. reflexivity.
Defined.

(** X10.  For a system of one battery, read with the keys the aggregate
    uses: when the battery reports a SOC and a positive capacity, its own
    stored energy sensor and the system stored energy sensor report the same
    value, less than one thousandth away from [(soc / 100) * capacity].  They
    part when the SOC is missing (the battery sensor reports 0, the system
    sensor nothing) and when the capacity is not positive (the battery sensor
    reports nothing, the system sensor a value). *)
Theorem battery_and_system_stored_energy
    (self : AggregateSensors.MarstekVenusAggregateSensor)
    (c : coordinator) (log : list log_record) (k : Qc) :
  AggregateSensors.sensor_for "system_stored_energy" = Some self ->
  reading "battery_total_energy" c = Some k ->
  let keys := {| soc := "battery_soc"; capacity := "battery_total_energy" |} in
  let w := {| coordinators := [c]; debug_log := log |} in
  let battery_value := MarstekVenusStoredEnergySensor.native_value keys c in
  let system_value := fst (AggregateSensors.native_value self w) in
  (forall s, reading "battery_soc" c = Some s -> 0 < k ->
     exists v : Qc,
       battery_value = Py.Returned (Some v) /\
       system_value = Py.Returned (Some v) /\
       within_unit 3 v (s / Qc_of_Z 100 * k)) /\
  (reading "battery_soc" c = None -> 0 < k ->
     battery_value = Py.Returned (Some 0) /\ system_value = Py.Returned None) /\
  (forall s, reading "battery_soc" c = Some s -> k <= 0 ->
     battery_value = Py.Returned None /\
     exists v : Qc,
       system_value = Py.Returned (Some v) /\
       within_unit 3 v (s / Qc_of_Z 100 * k)).
Proof.
  intros Hs Hk keys w battery_value system_value.
  subst system_value. rewrite (stored_energy_value self w Hs). simpl fst.
  subst battery_value. unfold MarstekVenusStoredEnergySensor.native_value.
  simpl omap. unfold stored_energy_of. rewrite Hk.
  unfold reading in *. destruct (Coordinator.data c) as [d|]; [|discriminate].
  simpl in *. unfold Py.get_default. simpl. rewrite Hk. simpl.
  split; [|split].
  - intros s Hsoc Hpos. rewrite Hsoc. simpl. rewrite Qcplus_0_r.
    destruct (decide (k <= 0)) as [Hle|_];
      [exfalso; exact (Qclt_not_le _ _ Hpos Hle)|].
    eexists. split; [reflexivity|]. split; [reflexivity|]. apply round_within_unit.
  - intros Hsoc Hpos. rewrite Hsoc. simpl.
    destruct (decide (k <= 0)) as [Hle|_];
      [exfalso; exact (Qclt_not_le _ _ Hpos Hle)|].
    unfold Qcdiv. rewrite !Qcmult_0_l, round_0. split; reflexivity.
  - intros s Hsoc Hle. rewrite Hsoc. simpl. rewrite Qcplus_0_r.
    destruct (decide (k <= 0)); [|contradiction].
    split; [reflexivity|].
    eexists. split; [reflexivity|]. apply round_within_unit.
Qed.

Lemma battery_and_system_stored_energy_witness :
  exists self,
    AggregateSensors.sensor_for "system_stored_energy" = Some self /\
    let c := battery "a" (Some {[ "battery_soc" := Qc_of_Z 50;
                                   "battery_total_energy" := Qc_of_Z 5 ]}) in
    reading "battery_total_energy" c = Some (Qc_of_Z 5) /\
    MarstekVenusStoredEnergySensor.native_value
      {| soc := "battery_soc"; capacity := "battery_total_energy" |} c
    = fst (AggregateSensors.native_value self (world_of [c])).
Proof.
  eexists. split; [reflexivity|]. intros c. split; [reflexivity|].
  match goal with
  | |- _ = fst (AggregateSensors.native_value ?s _) =>
      destruct (battery_and_system_stored_energy s c [] (Qc_of_Z 5) eq_refl eq_refl)
        as (Hagree & _)
  end.
  destruct (Hagree (Qc_of_Z 50) eq_refl) as (v & Hb & Hsys & _).
  { vm_compute. reflexivity. }
  rewrite Hb. symmetry. exact Hsys.
Defined.

End CalculatedExtras.

(** ** More on the binary sensors *)

Section BinaryExtras.

Import BinarySensor.

(** X11.  Saving and restoring the hysteresis flag is a round trip: if the
    host renders an active sensor as "on" and an inactive one as anything
    else, then restoring the rendered state of one coordinator into another
    gives the second the flag of the first.  Restoring the same state twice
    is the same as restoring it once. *)
Theorem hysteresis_restore_round_trip (render : bool -> string)
    (saved fresh : coordinator) (last_state : option State) :
  render true = "on" ->
  render false <> "on" ->
  ChargeHysteresisActiveSensor.is_on
    (ChargeHysteresisActiveSensor.async_added_to_hass
       (Some {| state := render (ChargeHysteresisActiveSensor.is_on saved) |}) fresh)
  = ChargeHysteresisActiveSensor.is_on saved /\
  ChargeHysteresisActiveSensor.async_added_to_hass last_state
    (ChargeHysteresisActiveSensor.async_added_to_hass last_state fresh)
  = ChargeHysteresisActiveSensor.async_added_to_hass last_state fresh.
Proof.
  intros Hon Hoff. split.
  - unfold ChargeHysteresisActiveSensor.is_on,
      ChargeHysteresisActiveSensor.async_added_to_hass. simpl.
    destruct (Coordinator._hysteresis_active saved).
    + rewrite Hon. reflexivity.
    + apply bool_decide_eq_false_2. exact Hoff.
  - destruct last_state; reflexivity.
Qed.

Lemma hysteresis_restore_round_trip_witness :
  let render := fun b : bool => if b then "on" else "off" in
  render true = "on" /\
  render false <> "on" /\
  ChargeHysteresisActiveSensor.is_on
    (ChargeHysteresisActiveSensor.async_added_to_hass
       (Some {| state := render true |}) (battery "a" None)) = true.
Proof.
  intros render. split; [reflexivity|]. split; [discriminate|].
  pose (saved := ChargeHysteresisActiveSensor.async_added_to_hass
                   (Some {| state := "on" |}) (battery "a" None)).
  destruct (hysteresis_restore_round_trip render saved (battery "a" None) None
              eq_refl ltac:(discriminate)) as [Htrip _].
  exact Htrip.
Defined.

(** X12.  The attributes of the hysteresis sensor do not depend on the
    hysteresis flag, so restoring a state leaves them as they were.  The
    [current_soc] they show is the SOC reading of the battery ([None] without
    a snapshot or with an empty one); the SOC ceiling and the hysteresis band
    they show are the configured ones, and the resume threshold they show is
    that ceiling minus that band. *)
Theorem hysteresis_attributes_stable (c : coordinator) (last_state : option State) :
  let attrs := HysteresisAttributes.extra_state_attributes c in
  let shown k v := PredictiveChargingStatusSensor.attrs_get attrs k = Some v in
  HysteresisAttributes.extra_state_attributes
    (ChargeHysteresisActiveSensor.async_added_to_hass last_state c)
  = attrs /\
  shown "current_soc" (PredictiveChargingStatusSensor.ANum (reading "battery_soc" c)) /\
  exists ceiling band threshold : Qc,
    shown "max_soc" (PredictiveChargingStatusSensor.ANum (Some ceiling)) /\
    shown "hysteresis_percent" (PredictiveChargingStatusSensor.ANum (Some band)) /\
    shown "charge_resume_threshold" (PredictiveChargingStatusSensor.ANum (Some threshold)) /\
    ceiling = Coordinator.max_soc c /\
    band = Coordinator.charge_hysteresis_percent c /\
    threshold = ceiling - band.
Proof.
  intros attrs shown. subst attrs shown. cbv beta.
  split; [|split].
  - destruct last_state; reflexivity.
  - unfold HysteresisAttributes.extra_state_attributes.
    change (Coordinator.data c ≫= _) with (reading "battery_soc" c).
    destruct (Py.truthy (Coordinator.data c)) eqn:Ht.
    + reflexivity.
    + rewrite (reading_not_truthy _ _ Ht). reflexivity.
  - eexists _, _, _. repeat split; reflexivity.
Qed.

Import PredictiveChargingStatusSensor.

(** X13.  The status sensor always shows the slot flag, the last evaluated
    SOC, the override flag and the contracted power.  It shows the
    consumption history, with its length as [history_days], exactly when the
    history is not empty, and it shows none of the ten decision attributes
    while the controller holds no decision record. *)
Theorem status_attributes_without_decision (controller : Controller) :
  let attrs := extra_state_attributes controller in
  attrs_get attrs "in_charging_slot"
    = Some (ABool (in_predictive_charging_slot controller)) /\
  attrs_get attrs "last_evaluation_soc" = Some (ANum (last_evaluation_soc controller)) /\
  attrs_get attrs "overridden" = Some (ABool (predictive_charging_overridden controller)) /\
  attrs_get attrs "max_contracted_power"
    = Some (ANum (Some (max_contracted_power controller))) /\
  (_daily_consumption_history controller <> [] ->
     attrs_get attrs "daily_consumption_history"
       = Some (AHistory (_daily_consumption_history controller)) /\
     attrs_get attrs "history_days"
       = Some (ALen (length (_daily_consumption_history controller)))) /\
  (_daily_consumption_history controller = [] ->
     attrs_get attrs "daily_consumption_history" = None /\
     attrs_get attrs "history_days" = None) /\
  (_last_decision_data controller = None ->
     Forall (fun k => attrs_get attrs k = None) decision_attributes).
Proof.
  intros attrs. subst attrs. unfold extra_state_attributes.
  destruct (charging_time_slot controller), (solar_forecast_sensor controller),
    (_daily_consumption_history controller) as [|day days],
    (_last_decision_data controller);
    repeat split; try reflexivity; try congruence; try discriminate;
    intros _; repeat constructor.
Qed.

Lemma status_attributes_without_decision_witness :
  BinarySensor._daily_consumption_history one_day_controller <> [] /\
  BinarySensor._last_decision_data one_day_controller = None /\
  attrs_get (extra_state_attributes one_day_controller) "history_days" = Some (ALen 1) /\
  attrs_get (extra_state_attributes one_day_controller) "cutoff_energy_kwh" = None.
Proof.
  destruct (status_attributes_without_decision one_day_controller)
    as (_ & _ & _ & _ & Hhistory & _ & Hnone).
  assert (Hne : BinarySensor._daily_consumption_history one_day_controller <> [])
    by discriminate.
  split; [exact Hne|]. split; [reflexivity|]. split.
  - exact (proj2 (Hhistory Hne)).
  - specialize (Hnone eq_refl). rewrite Forall_forall in Hnone.
    apply Hnone. apply list_elem_of_In. simpl. tauto.
Defined.

End BinaryExtras.

(** ** The register sensor *)

Section SensorExtras.

Import Sensor.

Lemma land_bit (z i : Z) :
  (0 <= i)%Z -> (Z.land z (Z.shiftl 1 i) <> 0%Z <-> Z.testbit z i = true).
Proof.
  intros Hi. rewrite Z.shiftl_1_l. split.
  - intros Hne. destruct (Z.testbit z i) eqn:Hb; [reflexivity|].
    exfalso. apply Hne. apply Z.bits_inj'. intros m Hm.
    rewrite Z.land_spec, Z.bits_0, Z.pow2_bits_eqb by exact Hi.
    destruct (Z.eqb_spec i m) as [->|_]; [rewrite Hb; reflexivity | apply andb_false_r].
  - intros Hb Hz.
    assert (Z.testbit (Z.land z (2 ^ i)) i = true) as Ht.
    { rewrite Z.land_spec, Hb, Z.pow2_bits_eqb, Z.eqb_refl by exact Hi. reflexivity. }
    rewrite Hz, Z.bits_0 in Ht. discriminate Ht.
Qed.

Lemma bits_loop_int (descriptions : gmap Z string) (z : Z) (positions : list Z)
    (active : list string) :
  Forall (fun i => (0 <= i)%Z) positions ->
  bits_loop (VInt z) descriptions positions active =
    Returned (active ++
      omap (fun i => if Z.testbit z i then descriptions !! i else None) positions).
Proof.
  intros Hpos. revert active.
  induction Hpos as [|i positions Hi _ IH]; intros active; simpl.
  - rewrite app_nil_r. reflexivity.
  - rewrite IH. f_equal.
    destruct (decide (Z.land z (Z.shiftl 1 i) <> 0%Z)) as [Hset|Hclear].
    + apply land_bit in Hset; [|exact Hi]. rewrite Hset.
      destruct (descriptions !! i); [rewrite <- app_assoc|]; reflexivity.
    + destruct (Z.testbit z i) eqn:Hb; [|reflexivity].
      exfalso. apply Hclear. apply land_bit; assumption.
Qed.

Lemma seqZ_nonneg (n : Z) : Forall (fun i => (0 <= i)%Z) (seqZ 0 n).
Proof.
  apply Forall_forall. intros i Hi. apply elem_of_seqZ in Hi. lia.
Qed.

Lemma bit_sensor_value (d : definition) (data : gmap string data_value) (z : Z)
    (descriptions : gmap Z string) :
  data !! key d = Some (VInt z) ->
  states d = None ->
  bit_descriptions d = Some descriptions ->
  native_value d (Some data) =
    Returned (Some (VStr (alarm_text (described_bits descriptions (max_bits d) z)))).
Proof.
  intros Hv Hst Hbits. unfold native_value. rewrite Hv, Hst, Hbits.
  rewrite bits_loop_int by apply seqZ_nonneg. simpl app.
  fold (described_bits descriptions (max_bits d) z).
  destruct (described_bits descriptions (max_bits d) z); reflexivity.
Qed.

(** X14.  For an int register with bit descriptions and no state table, the
    sensor shows the descriptions of exactly the bits that are set, described
    and below the width (32, or 64 for uint64), lowest bit first and joined by
    ", "; a set bit without a description is passed over, so the sensor shows
    "No active alarms/faults" whenever no described bit is set, even for a
    register that is not zero. *)
Theorem bit_sensor_decodes_described_bits (d : definition) (data : gmap string data_value)
    (z : Z) (descriptions : gmap Z string) :
  data !! key d = Some (VInt z) ->
  states d = None ->
  bit_descriptions d = Some descriptions ->
  let active := described_bits descriptions (max_bits d) z in
  native_value d (Some data) = Returned (Some (VStr (alarm_text active))) /\
  (forall s, s ∈ active <->
     exists i, (0 <= i < max_bits d)%Z /\ Z.testbit z i = true /\
               descriptions !! i = Some s) /\
  ((forall i, (0 <= i < max_bits d)%Z -> Z.testbit z i = true ->
      descriptions !! i = None) ->
   native_value d (Some data) = Returned (Some (VStr "No active alarms/faults"))).
Proof.
  intros Hv Hst Hbits active.
  pose proof (bit_sensor_value d data z descriptions Hv Hst Hbits) as Hval.
  fold active in Hval.
  assert (Hmem : forall s, s ∈ active <->
     exists i, (0 <= i < max_bits d)%Z /\ Z.testbit z i = true /\
               descriptions !! i = Some s).
  { intros s. subst active. unfold described_bits. rewrite list_elem_of_omap. split.
    - intros (i & Hi & Hs). apply elem_of_seqZ in Hi.
      destruct (Z.testbit z i) eqn:Hb; [|discriminate].
      exists i. repeat split; try lia; assumption.
    - intros (i & Hi & Hb & Hs). exists i. split.
      + apply elem_of_seqZ. lia.
      + rewrite Hb. exact Hs. }
  split; [exact Hval|]. split; [exact Hmem|].
  intros Hnone. rewrite Hval.
  destruct active as [|s rest] eqn:E; [reflexivity|].
  exfalso. destruct (proj1 (Hmem s) ltac:(left)) as (i & Hi & Hb & Hs).
  rewrite (Hnone i Hi Hb) in Hs. discriminate Hs.
Qed.

Lemma bit_sensor_decodes_described_bits_witness :
  let d := {| key := "alarm_status"; states := None;
              bit_descriptions := Some {[ 0%Z := "Over temperature"; 3%Z := "Fan fault" ]};
              data_type := None |} in
  native_value d (Some {[ "alarm_status" := VInt 9 ]})
    = Returned (Some (VStr "Over temperature, Fan fault")) /\
  native_value d (Some {[ "alarm_status" := VInt 6 ]})
    = Returned (Some (VStr "No active alarms/faults")).
Proof.
  intros d.
  pose (m9 := {[ "alarm_status" := VInt 9 ]} : gmap string data_value).
  pose (m6 := {[ "alarm_status" := VInt 6 ]} : gmap string data_value).
  assert (H9 : m9 !! key d = Some (VInt 9)) by reflexivity.
  assert (H6 : m6 !! key d = Some (VInt 6)) by reflexivity.
  split.
  - destruct (bit_sensor_decodes_described_bits d m9 9 _ H9 eq_refl eq_refl) as (Hv & _).
    fold m9. rewrite Hv. reflexivity.
  - destruct (bit_sensor_decodes_described_bits d m6 6 _ H6 eq_refl eq_refl) as (Hv & _).
    fold m6. rewrite Hv. reflexivity.
Defined.

Lemma omap_ext_elem {A B : Type} (f g : A -> option B) (xs : list A) :
  (forall x, x ∈ xs -> f x = g x) -> omap f xs = omap g xs.
Proof.
  induction xs as [|x xs IH]; intros H; simpl; [reflexivity|].
  rewrite (H x) by left.
  destruct (g x); [f_equal|]; apply IH; intros y Hy; apply H; right; exact Hy.
Qed.

(** X15.  Only the low bits count: two register values that agree modulo
    2^32 (2^64 for a uint64 definition) are shown the same, so a bit at or
    above the width is never reported, and a negative value is read as its
    two's complement. *)
Theorem bit_sensor_reads_low_bits_only (d : definition)
    (data1 data2 : gmap string data_value) (z1 z2 : Z) (descriptions : gmap Z string) :
  data1 !! key d = Some (VInt z1) ->
  data2 !! key d = Some (VInt z2) ->
  states d = None ->
  bit_descriptions d = Some descriptions ->
  (z1 mod 2 ^ max_bits d = z2 mod 2 ^ max_bits d)%Z ->
  native_value d (Some data1) = native_value d (Some data2).
Proof.
  intros H1 H2 Hst Hbits Hmod.
  rewrite (bit_sensor_value d data1 z1 descriptions H1 Hst Hbits).
  rewrite (bit_sensor_value d data2 z2 descriptions H2 Hst Hbits).
  do 4 f_equal. unfold described_bits. apply omap_ext_elem.
  intros i Hi. apply elem_of_seqZ in Hi.
  assert (Hb : Z.testbit z1 i = Z.testbit z2 i).
  { rewrite <- (Z.mod_pow2_bits_low z1 (max_bits d) i) by lia.
    rewrite <- (Z.mod_pow2_bits_low z2 (max_bits d) i) by lia.
    rewrite Hmod. reflexivity. }
  rewrite Hb. reflexivity.
Qed.

Lemma bit_sensor_reads_low_bits_only_witness :
  let d := {| key := "fault_status"; states := None;
              bit_descriptions := Some {[ 31%Z := "Grid lost" ]};
              data_type := None |} in
  ((-1) mod 2 ^ max_bits d = 4294967295 mod 2 ^ max_bits d)%Z /\
  native_value d (Some {[ "fault_status" := VInt (-1) ]})
    = native_value d (Some {[ "fault_status" := VInt 4294967295 ]}).
Proof.
  intros d.
  assert (Hmod : ((-1) mod 2 ^ max_bits d = 4294967295 mod 2 ^ max_bits d)%Z)
    by reflexivity.
  split; [exact Hmod|].
  pose (m1 := {[ "fault_status" := VInt (-1) ]} : gmap string data_value).
  pose (m2 := {[ "fault_status" := VInt 4294967295 ]} : gmap string data_value).
  assert (H1 : m1 !! key d = Some (VInt (-1))) by reflexivity.
  assert (H2 : m2 !! key d = Some (VInt 4294967295)) by reflexivity.
  exact (bit_sensor_reads_low_bits_only d m1 m2 (-1) 4294967295 _
           H1 H2 eq_refl eq_refl Hmod).
Defined.

Lemma bits_loop_not_int (v : data_value) (descriptions : gmap Z string)
    (positions : list Z) (active : list string) :
  (forall z, v <> VInt z) -> positions <> [] ->
  bits_loop v descriptions positions active = Raised TypeError.
Proof.
  intros Hv Hne. destruct positions as [|i rest]; [contradiction|].
  simpl. destruct v as [z| |]; [exfalso; exact (Hv z eq_refl) | |]; reflexivity.
Qed.

Lemma range_max_bits_nonempty (d : definition) : seqZ 0 (max_bits d) <> [].
Proof.
  unfold max_bits. destruct (decide _); discriminate.
Qed.

(** X16.  The register sensor raises in exactly one situation: the
    definition has bit descriptions and no state table, and the value read is
    not an int; the error is then a TypeError.  Without a snapshot or without
    the key it returns [None]; with a state table it never looks at the bit
    descriptions and shows the name of an int that is a key of the table and
    an int that is not as it is. *)
Theorem register_sensor_error_behaviour (d : definition)
    (data : option (gmap string data_value)) :
  (forall e, native_value d data = Raised e <->
     e = TypeError /\
     exists m v descriptions,
       data = Some m /\ m !! key d = Some v /\ states d = None /\
       bit_descriptions d = Some descriptions /\ forall z, v <> VInt z) /\
  (data = None \/ (exists m, data = Some m /\ m !! key d = None) ->
     native_value d data = Returned None) /\
  (forall m table z,
     data = Some m -> states d = Some table -> m !! key d = Some (VInt z) ->
     native_value d data =
       Returned (Some match table !! z with Some name => VStr name | None => VInt z end)).
Proof.
  split; [|split].
  - intros e. split.
    + unfold native_value. intros H.
      destruct data as [m|]; [|discriminate].
      destruct (m !! key d) as [v|] eqn:Hv; [|discriminate].
      destruct (states d) as [table|] eqn:Hst; [discriminate|].
      destruct (bit_descriptions d) as [descriptions|] eqn:Hbits; [|discriminate].
      destruct v as [z|q|s].
      * rewrite bits_loop_int in H by apply seqZ_nonneg.
        destruct (_ ++ _) in H; discriminate.
      * rewrite bits_loop_not_int in H
          by (try discriminate; apply range_max_bits_nonempty).
        injection H as <-. split; [reflexivity|].
        exists m, (VFloat q), descriptions. repeat split; try assumption. discriminate.
      * rewrite bits_loop_not_int in H
          by (try discriminate; apply range_max_bits_nonempty).
        injection H as <-. split; [reflexivity|].
        exists m, (VStr s), descriptions. repeat split; try assumption. discriminate.
    + intros (-> & m & v & descriptions & -> & Hv & Hst & Hbits & Hint).
      unfold native_value. rewrite Hv, Hst, Hbits.
      rewrite bits_loop_not_int by (try assumption; apply range_max_bits_nonempty).
      reflexivity.
  - intros [-> | (m & -> & Hv)]; unfold native_value; [|rewrite Hv]; reflexivity.
  - intros m table z -> Hst Hv. unfold native_value. rewrite Hv, Hst. simpl.
    destruct (table !! z); reflexivity.
Qed.

Lemma register_sensor_error_behaviour_witness :
  let d := {| key := "alarm_status"; states := None;
              bit_descriptions := Some {[ 0%Z := "Over temperature" ]};
              data_type := Some "uint64" |} in
  native_value d (Some {[ "alarm_status" := VFloat (Qc_of_Z 1) ]}) = Raised TypeError /\
  native_value d (Some {[ "battery_soc" := VInt 1 ]}) = Returned None.
Proof.
  intros d. split.
  - apply (register_sensor_error_behaviour d
             (Some {[ "alarm_status" := VFloat (Qc_of_Z 1) ]})).
    split; [reflexivity|].
    exists {[ "alarm_status" := VFloat (Qc_of_Z 1) ]}, (VFloat (Qc_of_Z 1)),
      {[ 0%Z := "Over temperature" ]}.
    repeat split; discriminate.
  - apply (register_sensor_error_behaviour d (Some {[ "battery_soc" := VInt 1 ]})).
    right. exists {[ "battery_soc" := VInt 1 ]}. split; reflexivity.
Defined.

End SensorExtras.
